(** * Smart attendance system: roster, check-in recorder and reports

    A shallow embedding of [streamlit_app.py].  The SQLite database is a
    record of two tables (lists of rows in insertion order) with the two
    AUTOINCREMENT counters; every page function takes the widget values and
    the clock and random readings it consumes as arguments and returns what
    it renders together with the next database.

    Python [str] values are modelled as [string], one [ascii] per code point
    (code points below 256). *)

From Stdlib Require Import List String Ascii Bool Arith NArith Lia Permutation.
From Stdlib Require Import PrimFloat.
From Stdlib Require Import Sorted RelationClasses.
Import ListNotations.

Local Open Scope string_scope.

(** ** Python string helpers *)

Module PyStr.

(** [bool(s)] for a [str]: true exactly for a non-empty string. *)
Definition truthy (s : string) : bool :=
  match s with
  | EmptyString => false
  | String _ _ => true
  end.

(** [c.isspace()] on code points below 256: TAB..CR, FS..US, space,
    NEL (0x85) and NBSP (0xA0). *)
Definition isspace (c : ascii) : bool :=
  let n := N_of_ascii c in
  ((9 <=? n) && (n <=? 13) || (28 <=? n) && (n <=? 32)
   || (n =? 133) || (n =? 160))%N.

Fixpoint lstrip (s : string) : string :=
  match s with
  | EmptyString => EmptyString
  | String c s' => if isspace c then lstrip s' else s
  end.

Fixpoint rstrip (s : string) : string :=
  match s with
  | EmptyString => EmptyString
  | String c s' =>
      match rstrip s' with
      | EmptyString => if isspace c then EmptyString else String c EmptyString
      | r => String c r
      end
  end.

(** [s.strip()] *)
Definition strip (s : string) : string := rstrip (lstrip s).

(** [c.upper()] on the ASCII letters (the only letters [upper] meets in
    this program are the hexadecimal digits a..f). *)
Definition upper_char (c : ascii) : ascii :=
  let n := N_of_ascii c in
  if ((97 <=? n) && (n <=? 122))%N then ascii_of_N (n - 32) else c.

Fixpoint upper (s : string) : string :=
  match s with
  | EmptyString => EmptyString
  | String c s' => String (upper_char c) (upper s')
  end.

(** [needle in hay] *)
Fixpoint contains (needle hay : string) : bool :=
  prefix needle hay
  || match hay with
     | EmptyString => false
     | String _ hay' => contains needle hay'
     end.

(** Every character is white space (also true of the empty string). *)
Fixpoint all_space (s : string) : bool :=
  match s with
  | EmptyString => true
  | String c s' => isspace c && all_space s'
  end.

(** No character is white space. *)
Fixpoint no_space (s : string) : bool :=
  match s with
  | EmptyString => true
  | String c s' => negb (isspace c) && no_space s'
  end.

End PyStr.

(** ** [uuid.uuid4()] and its string form *)

Module Uuid.

(** One lower-case hexadecimal digit, as ['%x'] prints it. *)
Definition hex_digit (d : N) : ascii :=
  if (d <? 10)%N then ascii_of_N (48 + d) else ascii_of_N (87 + d).

(** The [k] lowest hexadecimal digits of [n], most significant first:
    ['%032x' % n] is [hex_digits 32 n] for [n < 2^128]. *)
Fixpoint hex_digits (k : nat) (n : N) : string :=
  match k with
  | O => EmptyString
  | S k' => String (hex_digit ((n / 16 ^ N.of_nat k') mod 16)) (hex_digits k' n)
  end.

(** [str(UUID(int=u))]: the 8-4-4-4-12 grouping of the 32 digits. *)
Definition str (u : N) : string :=
  let h := hex_digits 32 u in
  substring 0 8 h ++ "-" ++ substring 8 4 h ++ "-" ++ substring 12 4 h
    ++ "-" ++ substring 16 4 h ++ "-" ++ substring 20 12 h.

End Uuid.

(** [generate_unique_barcode()]; [u] is the integer of the UUID that
    [uuid.uuid4()] draws. *)
Definition generate_unique_barcode (u : N) : string :=
  PyStr.upper (substring 0 8 (Uuid.str u)).

(** ** Dates and times *)

Record date := mkDate { year : nat; month : nat; day : nat }.

Record datetime := mkDatetime {
  on : date; hour : nat; minute : nat; second : nat }.

Module Strftime.

Definition digit (n : nat) : ascii := ascii_of_nat (48 + n mod 10).

(** [%m], [%d], [%H], [%M], [%S]: two digits, zero padded. *)
Definition pad2 (n : nat) : string :=
  String (digit (n / 10)) (String (digit n) EmptyString).

(** [%Y]: four digits (years 1000..9999). *)
Definition pad4 (n : nat) : string :=
  String (digit (n / 1000)) (String (digit (n / 100))
    (String (digit (n / 10)) (String (digit n) EmptyString))).

(** [d.strftime('%Y-%m-%d')] *)
Definition ymd (d : date) : string :=
  pad4 (year d) ++ "-" ++ pad2 (month d) ++ "-" ++ pad2 (day d).

(** [t.strftime('%H:%M:%S')] *)
Definition hms (t : datetime) : string :=
  pad2 (hour t) ++ ":" ++ pad2 (minute t) ++ ":" ++ pad2 (second t).

End Strftime.

(** ** The database *)

(** A row of [students].  [created_at] is filled by the database and never
    read by the operations below, so it is left out. *)
Record Student := mkStudent {
  id : N;
  name : string;
  reg_no : string;
  department : string;
  parent_phone : string;
  barcode : string }.

(** A row of [attendance] ([created_at] left out as above).  In the tuple
    the driver returns, index 3 is [time] and index 4 is [status]. *)
Record Attendance := mkAttendance {
  a_id : N;
  student_id : N;
  a_date : string;
  a_time : string;
  status : string }.

(** The connection's database: both tables in insertion (rowid) order and
    the AUTOINCREMENT counter of each. *)
Record Store := mkStore {
  students : list Student;
  attendance : list Attendance;
  students_seq : N;
  attendance_seq : N }.

(** [init_database()] on a fresh file: both tables empty. *)
Definition init_database : Store := mkStore [] [] 0 0.

(** The options of the department select box. *)
Inductive Department :=
| ComputerScience | ElectronicsCommunication | Mechanical
| Civil | ElectricalElectronics | InformationTechnology.

Definition department_options : list string :=
  [ "Computer Science and Engineering";
    "Electronics and Communication Engineering";
    "Mechanical Engineering";
    "Civil Engineering";
    "Electrical and Electronics Engineering";
    "Information Technology" ].

(** The string the select box returns for the chosen option. *)
Definition department_name (d : Department) : string :=
  match d with
  | ComputerScience => "Computer Science and Engineering"
  | ElectronicsCommunication => "Electronics and Communication Engineering"
  | Mechanical => "Mechanical Engineering"
  | Civil => "Civil Engineering"
  | ElectricalElectronics => "Electrical and Electronics Engineering"
  | InformationTechnology => "Information Technology"
  end.

(** ** Roster manager: the "Register Student" page *)

(** What the page renders after a submission. *)
Inductive RegisterResult :=
| RegistrationSuccessful (name reg_no department barcode : string)
| RegistrationFailed (reg_no : string)
| DatabaseError (message : string)
| IncompleteInformation.

(** [INSERT INTO students (name, reg_no, department, parent_phone, barcode)]
    followed by [commit].  The two UNIQUE columns are checked before the row
    is written; SQLite tests the index declared last ([barcode]) first and
    names the failed constraint in the [IntegrityError] message.  A rejected
    statement changes nothing, the AUTOINCREMENT counter included. *)
Definition insert_student (s : Store)
    (name0 reg_no0 department0 parent_phone0 barcode0 : string)
    : Store + string :=
  if existsb (fun st => st.(barcode) =? barcode0) s.(students) then
    inr "UNIQUE constraint failed: students.barcode"
  else if existsb (fun st => st.(reg_no) =? reg_no0) s.(students) then
    inr "UNIQUE constraint failed: students.reg_no"
  else
    let new_id := (s.(students_seq) + 1)%N in
    inl (mkStore
           (s.(students)
              ++ [mkStudent new_id name0 reg_no0 department0 parent_phone0
                            barcode0])
           s.(attendance) new_id s.(attendance_seq)).

(** The body under [if submit_button:].  [u] is the UUID drawn by
    [generate_unique_barcode].  Rendering the QR image after a successful
    insert is left to the encoding collaborator. *)
Definition register (s : Store) (name reg_no : string) (dept : Department)
    (parent_phone : string) (u : N) : RegisterResult * Store :=
  let department := department_name dept in
  if PyStr.truthy name && PyStr.truthy reg_no
     && PyStr.truthy department && PyStr.truthy parent_phone then
    let barcode := generate_unique_barcode u in
    match insert_student s name reg_no department parent_phone barcode with
    | inl s' => (RegistrationSuccessful name reg_no department barcode, s')
    | inr e =>
        if PyStr.contains "reg_no" e then (RegistrationFailed reg_no, s)
        else (DatabaseError e, s)
    end
  else (IncompleteInformation, s).

(** [register_student(conn)]: nothing happens until the form is submitted. *)
Definition register_student (s : Store) (submit_button : bool)
    (name reg_no : string) (dept : Department) (parent_phone : string) (u : N)
    : option RegisterResult * Store :=
  if submit_button then
    let (r, s') := register s name reg_no dept parent_phone u in (Some r, s')
  else (None, s).

(** [SELECT * FROM students WHERE barcode = ?] with [fetchone()]. *)
Definition lookup_by_scan_id (s : Store) (token : string) : option Student :=
  find (fun st => st.(barcode) =? token) s.(students).

(** ** Attendance recorder: the "QR Scanner" page *)

Inductive Emoji := Green | Yellow | Red.

(** [determine_attendance_status()]; [now] is the reading of
    [datetime.now()]. *)
Definition determine_attendance_status (now : datetime) : string * Emoji :=
  let current_hour := now.(hour) in
  if (current_hour <=? 9)%nat then ("present", Green)
  else if (current_hour <=? 10)%nat then ("late", Yellow)
  else ("absent", Red).

(** What the page renders after a scan. *)
Inductive AttendanceResult :=
| AttendanceMarked (st : Student) (date time status : string) (e : Emoji)
| AlreadyMarked (st : Student) (time status : string)
| InvalidQRCode.

(** [SELECT * FROM attendance WHERE student_id = ? AND date = ?] with
    [fetchone()]. *)
Definition existing_record (s : Store) (student_id0 : N) (today : string)
    : option Attendance :=
  find (fun a => (a.(student_id) =? student_id0)%N && (a.(a_date) =? today))
       s.(attendance).

(** [INSERT INTO attendance (student_id, date, time, status)] and [commit]. *)
Definition insert_attendance (s : Store) (student_id0 : N)
    (date0 time0 status0 : string) : Store :=
  let new_id := (s.(attendance_seq) + 1)%N in
  mkStore s.(students)
          (s.(attendance) ++ [mkAttendance new_id student_id0 date0 time0 status0])
          s.(students_seq) new_id.

(** The body under [if scan_button and scanned_code:].  The clock is read
    three times: for [today], inside [determine_attendance_status] and for
    [current_time]. *)
Definition record_checkin (s : Store) (scanned_code : string)
    (now_today now_status now_time : datetime) : AttendanceResult * Store :=
  match lookup_by_scan_id s (PyStr.strip scanned_code) with
  | Some st =>
      let today := Strftime.ymd now_today.(on) in
      match existing_record s st.(id) today with
      | Some r => (AlreadyMarked st r.(a_time) r.(status), s)
      | None =>
          let (status0, emoji) := determine_attendance_status now_status in
          let current_time := Strftime.hms now_time in
          (AttendanceMarked st today current_time status0 emoji,
           insert_attendance s st.(id) today current_time status0)
      end
  | None => (InvalidQRCode, s)
  end.

(** [qr_scanner(conn)]: nothing happens unless the button is pressed and the
    text box is non-empty. *)
Definition qr_scanner (s : Store) (scan_button : bool) (scanned_code : string)
    (now_today now_status now_time : datetime)
    : option AttendanceResult * Store :=
  if scan_button && PyStr.truthy scanned_code then
    let (r, s') := record_checkin s scanned_code now_today now_status now_time in
    (Some r, s')
  else (None, s).

(** *** The scanned text as Unicode *)

(** A Python [str] with arbitrary characters: the list of its code points.
    The text pasted into the scanner box may hold any character; the
    strings stored in the database are embedded by [of_string]. *)
Module PyText.

Definition text := list N.

(** [c.isspace()] on a code point: TAB..CR, FS..US, space, NEL, NBSP,
    U+1680, U+2000..U+200A, U+2028, U+2029, U+202F, U+205F and U+3000. *)
Definition isspace (cp : N) : bool :=
  ((9 <=? cp) && (cp <=? 13) || (28 <=? cp) && (cp <=? 32)
   || (cp =? 133) || (cp =? 160) || (cp =? 5760)
   || (8192 <=? cp) && (cp <=? 8202) || (cp =? 8232) || (cp =? 8233)
   || (cp =? 8239) || (cp =? 8287) || (cp =? 12288))%N.

Fixpoint lstrip (t : text) : text :=
  match t with
  | [] => []
  | c :: t' => if isspace c then lstrip t' else t
  end.

Fixpoint rstrip (t : text) : text :=
  match t with
  | [] => []
  | c :: t' =>
      match rstrip t' with
      | [] => if isspace c then [] else [c]
      | r => c :: r
      end
  end.

(** [t.strip()] *)
Definition strip (t : text) : text := rstrip (lstrip t).

(** The code points of a string of the database. *)
Definition of_string (s : string) : text :=
  map N_of_ascii (list_ascii_of_string s).

(** Equality of two texts, code point by code point. *)
Fixpoint eqb (a b : text) : bool :=
  match a, b with
  | [], [] => true
  | x :: a', y :: b' => (x =? y)%N && eqb a' b'
  | _, _ => false
  end.

End PyText.

(** [SELECT * FROM students WHERE barcode = ?] with [fetchone()], the
    parameter being any text. *)
Definition lookup_by_scan_text (s : Store) (token : PyText.text)
    : option Student :=
  find (fun st => PyText.eqb (PyText.of_string st.(barcode)) token)
       s.(students).

(** The body under [if scan_button and scanned_code:] for a scanned text
    with arbitrary characters; on the texts [of_string c] it is
    [record_checkin s c]. *)
Definition record_checkin_text (s : Store) (scanned_code : PyText.text)
    (now_today now_status now_time : datetime) : AttendanceResult * Store :=
  match lookup_by_scan_text s (PyText.strip scanned_code) with
  | Some st =>
      let today := Strftime.ymd now_today.(on) in
      match existing_record s st.(id) today with
      | Some r => (AlreadyMarked st r.(a_time) r.(status), s)
      | None =>
          let (status0, emoji) := determine_attendance_status now_status in
          let current_time := Strftime.hms now_time in
          (AttendanceMarked st today current_time status0 emoji,
           insert_attendance s st.(id) today current_time status0)
      end
  | None => (InvalidQRCode, s)
  end.

(** ** Histories of the two writing pages *)

Inductive Action :=
| Register (submit_button : bool) (name reg_no : string) (dept : Department)
           (parent_phone : string) (u : N)
| Scan (scan_button : bool) (scanned_code : string)
       (now_today now_status now_time : datetime).

Definition step (s : Store) (a : Action) : Store :=
  match a with
  | Register b n r d p u => snd (register_student s b n r d p u)
  | Scan b c t1 t2 t3 => snd (qr_scanner s b c t1 t2 t3)
  end.

(** The database after a sequence of page runs, oldest first. *)
Definition run (acts : list Action) (s : Store) : Store :=
  fold_left step acts s.

(** Number of attendance rows of one student on one date. *)
Definition records_for (s : Store) (student_id0 : N) (date0 : string) : nat :=
  List.length
    (filter (fun a => (a.(student_id) =? student_id0)%N && (a.(a_date) =? date0))
            s.(attendance)).

(** ** Reporting aggregator *)

(** [ORDER BY]: stable insertion sort; [before x y] says that [x] may stand
    before [y].  (SQL leaves the order of ties open; here they keep the
    order of the scan.) *)
Fixpoint insert_by {A : Type} (before : A -> A -> bool) (x : A) (l : list A)
    : list A :=
  match l with
  | [] => [x]
  | y :: l' => if before x y then x :: l else y :: insert_by before x l'
  end.

Definition order_by {A : Type} (before : A -> A -> bool) (l : list A) : list A :=
  fold_right (insert_by before) [] l.

(** A row of the report query:
    [s.name, s.reg_no, s.department, a.date, a.time, a.status]. *)
Record ReportRow := mkReportRow {
  r_name : string;
  r_reg_no : string;
  r_department : string;
  r_date : string;
  r_time : string;
  r_status : string }.

(** [ORDER BY a.date DESC, a.time DESC] *)
Definition report_order (x y : ReportRow) : bool :=
  String.ltb y.(r_date) x.(r_date)
  || (y.(r_date) =? x.(r_date)) && String.leb y.(r_time) x.(r_time).

(** The report query: [attendance a JOIN students s ON a.student_id = s.id
    WHERE a.date BETWEEN start AND end], with [AND s.department = ?] when a
    department is chosen ([None] is "All Departments"). *)
Definition report_data (s : Store) (start_date end_date : date)
    (department_filter : option Department) : list ReportRow :=
  let lo := Strftime.ymd start_date in
  let hi := Strftime.ymd end_date in
  order_by report_order
    (flat_map
       (fun a =>
          flat_map
            (fun st =>
               if (a.(student_id) =? st.(id))%N
                  && String.leb lo a.(a_date) && String.leb a.(a_date) hi
                  && match department_filter with
                     | None => true
                     | Some d => st.(department) =? department_name d
                     end
               then [mkReportRow st.(name) st.(reg_no) st.(department)
                                 a.(a_date) a.(a_time) a.(status)]
               else [])
            s.(students))
       s.(attendance)).

(** [len(report_data[report_data['status'] == v])] *)
Definition count_status (v : string) (rows : list ReportRow) : nat :=
  List.length (filter (fun r => r.(r_status) =? v) rows).

Inductive ReportResult :=
| SummaryStatistics (total_records present_count late_count absent_count : nat)
                    (rows : list ReportRow)
| NoRecordsFound.

(** The body under the "Generate Report" button. *)
Definition generate_report (s : Store) (start_date end_date : date)
    (department_filter : option Department) : ReportResult :=
  match report_data s start_date end_date department_filter with
  | [] => NoRecordsFound
  | rows =>
      SummaryStatistics (List.length rows) (count_status "present" rows)
                        (count_status "late" rows) (count_status "absent" rows)
                        rows
  end.

(** [attendance_reports(conn)] *)
Definition attendance_reports (s : Store) (generate_button : bool)
    (start_date end_date : date) (department_filter : option Department)
    : option ReportResult :=
  if generate_button
  then Some (generate_report s start_date end_date department_filter)
  else None.

(** *** Per-student statistics: the "All Students" page *)

(** float64 arithmetic, as pandas and NumPy compute the rate column. *)
Module Float64.

Local Open Scope float_scope.

Fixpoint of_pos (p : positive) : float :=
  match p with
  | xH => 1
  | xO q => 2 * of_pos q
  | xI q => 2 * of_pos q + 1
  end.

(** Conversion of an int64 count (exact below 2^53). *)
Definition of_nat (n : nat) : float :=
  match N.of_nat n with
  | N0 => 0
  | Npos p => of_pos p
  end.

(** [rint] (round half to even) for [0 <= x < 2^52]. *)
Definition rint (x : float) : float :=
  (x + 4503599627370496) - 4503599627370496.

(** [Series.round(1)]: NumPy scales by 10, applies [rint] and divides
    by 10. *)
Definition round1 (x : float) : float := rint (x * 10) / 10.

End Float64.

(** A row of [students_data]: the grouped LEFT JOIN with the added
    [attendance_rate] column. *)
Record StudentStats := mkStudentStats {
  student : Student;
  total_attendance : nat;
  present_count : nat;
  late_count : nat;
  absent_count : nat;
  attendance_rate : float }.

(** [COUNT(CASE WHEN a.status = v THEN 1 END)] over the rows joined to [st];
    a student without attendance joins one all-NULL row, which no COUNT
    counts. *)
Definition count_for (s : Store) (st : Student) (keep : Attendance -> bool)
    : nat :=
  List.length
    (filter (fun a => (st.(id) =? a.(student_id))%N && keep a) s.(attendance)).

(** [Series.replace(0, 1)] on one entry. *)
Definition replace_0_1 (n : nat) : nat :=
  match n with
  | O => 1
  | _ => n
  end.

(** [((present_count + late_count) / total_attendance.replace(0, 1) * 100)
    .round(1)] on one row. *)
Definition rate (present late total : nat) : float :=
  Float64.round1
    (Float64.of_nat (present + late) / Float64.of_nat (replace_0_1 total)
     * 100)%float.

(** One group of [GROUP BY s.id] ([id] is the primary key, so every student
    row is a group of its own). *)
Definition stats_row (s : Store) (st : Student) : StudentStats :=
  let total := count_for s st (fun _ => true) in
  let present := count_for s st (fun a => a.(status) =? "present") in
  let late := count_for s st (fun a => a.(status) =? "late") in
  let absent := count_for s st (fun a => a.(status) =? "absent") in
  mkStudentStats st total present late absent (rate present late total).

(** [students_data] after the rate column is added; [ORDER BY s.name]. *)
Definition students_data (s : Store) : list StudentStats :=
  map (stats_row s)
      (order_by (fun x y => String.leb x.(name) y.(name)) s.(students)).

(** A Python number: the rate shown is a float or the literal [0]. *)
Inductive PyNumber :=
| PyInt (n : nat)
| PyFloat (x : float).

(** [student['attendance_rate'] if student['total_attendance'] > 0 else 0] *)
Definition shown_rate (row : StudentStats) : PyNumber :=
  if (0 <? row.(total_attendance))%nat then PyFloat row.(attendance_rate)
  else PyInt 0.

(** One expander of the page: the total written under "Total Records" and
    the rate written under "Attendance Rate". *)
Record StudentCard := mkStudentCard {
  card_row : StudentStats;
  card_total : nat;
  card_rate : PyNumber }.

(** [all_students(conn)]: [None] is the "No students registered yet" note. *)
Definition all_students (s : Store) : option (list StudentCard) :=
  match students_data s with
  | [] => None
  | rows =>
      Some (map (fun row => mkStudentCard row row.(total_attendance)
                                          (shown_rate row)) rows)
  end.

(** ** Invariants of the database *)

(** The three values the recorder writes into [status]. *)
Definition valid_status (v : string) : Prop :=
  v = "present" \/ v = "late" \/ v = "absent".

(** Every attendance row carries one of the three statuses. *)
Definition statuses_ok (s : Store) : Prop :=
  Forall (fun a => valid_status a.(status)) s.(attendance).

(** No two students share a barcode and no barcode contains white space. *)
Definition roster_ok (s : Store) : Prop :=
  NoDup (map barcode s.(students))
  /\ Forall (fun st => PyStr.no_space st.(barcode) = true) s.(students).

(** At most one attendance row per student and date. *)
Definition daily_unique (s : Store) : Prop :=
  forall (student_id0 : N) (date0 : string), records_for s student_id0 date0 <= 1.

(** [sqlite3.IntegrityError] reached the page: either of its two messages. *)
Definition integrity_error (r : RegisterResult) : bool :=
  match r with
  | RegistrationFailed _ | DatabaseError _ => true
  | _ => false
  end.

(** ** A worked scenario *)

Module Scenario.

(** Three UUIDs; the first two agree on their first eight digits. *)
Definition uuid_a : N := 0x3f2a9c10dead4eef8123456789abcdef.
Definition uuid_b : N := 0x3f2a9c10beef4aaa9123456789abcdef.
Definition uuid_c : N := 0x7b1e55d2c0de4f00a123456789abcdef.

(** A time of day in March 2024. *)
Definition march (d h m : nat) : datetime := mkDatetime (mkDate 2024 3 d) h m 0.

Definition register_a : Action :=
  Register true "A" "CS001" ComputerScience "+15550100" uuid_a.

Definition student_a : Student :=
  mkStudent 1 "A" "CS001" "Computer Science and Engineering" "+15550100"
            "3F2A9C10".

(** Student A registered, nothing scanned yet. *)
Definition roster : Store := run [register_a] init_database.

Definition scan_a (t : datetime) : Action := Scan true "3F2A9C10" t t t.

(** Student A checks in on three days: on time once, after 10 twice. *)
Definition three_days : Store :=
  run [register_a; scan_a (march 1 8 30); scan_a (march 4 11 5);
       scan_a (march 5 12 0)] init_database.

End Scenario.

(** ** The sidebar and the dashboard *)

(** [SELECT COUNT] of all rows of [students]. *)
Definition total_students (s : Store) : nat := List.length s.(students).

(** [SELECT COUNT] of the rows of [attendance] with [date=?]. *)
Definition attendance_on (s : Store) (today : string) : nat :=
  List.length (filter (fun a => a.(a_date) =? today) s.(attendance)).

(** [SELECT COUNT] of the rows of [attendance] with [date=? AND status=v]. *)
Definition attendance_on_with (s : Store) (today v : string) : nat :=
  List.length
    (filter (fun a => (a.(a_date) =? today) && (a.(status) =? v))
            s.(attendance)).

Record QuickStats := mkQuickStats {
  qs_total_students : nat;
  qs_today_attendance : nat;
  qs_attendance_rate : option float }.

(** The "Quick Stats" of the sidebar in [main()]: the rate metric is shown
    only when there are students ([None] otherwise).  The quotient of the two
    counts is the float64 quotient (counts below 2^53). *)
Definition quick_stats (s : Store) (now : datetime) : QuickStats :=
  let total := total_students s in
  let today := Strftime.ymd now.(on) in
  let today_attendance := attendance_on s today in
  mkQuickStats total today_attendance
    (if (0 <? total)%nat
     then Some (Float64.of_nat today_attendance / Float64.of_nat total * 100)%float
     else None).

Record DashboardMetrics := mkDashboardMetrics {
  dm_total_students : nat;
  dm_today_attendance : nat;
  dm_present_today : nat;
  dm_late_today : nat }.

(** The four metric cards of [show_dashboard(conn)].  (The "recent
    activity" table orders by [created_at], which is not modelled.) *)
Definition dashboard_metrics (s : Store) (now : datetime) : DashboardMetrics :=
  let today := Strftime.ymd now.(on) in
  mkDashboardMetrics (total_students s) (attendance_on s today)
                     (attendance_on_with s today "present")
                     (attendance_on_with s today "late").

(** ** The "QR Code Generator" page *)

(** [s.replace(old, new)] for a one-character [old]. *)
Fixpoint replace_char (old : ascii) (new : string) (s : string) : string :=
  match s with
  | EmptyString => EmptyString
  | String c s' =>
      if Ascii.eqb c old then new ++ replace_char old new s'
      else String c (replace_char old new s')
  end.

(** [f"{name.replace(' ', '_')}_QR.png"]: the download name on the
    registration page. *)
Definition registration_file_name (name0 : string) : string :=
  replace_char " " "_" name0 ++ "_QR.png".

(** [f"{selected_student.replace(' ', '_').replace('(', '').replace(')', '')}
    _QR.png"]: the download name on the generator page. *)
Definition generator_file_name (selected_student : string) : string :=
  replace_char ")" "" (replace_char "(" "" (replace_char " " "_" selected_student))
  ++ "_QR.png".

(** [d[k] = v] on a dict, which keeps its keys in insertion order: a key
    already present keeps its place and takes the new value. *)
Fixpoint dict_set {V : Type} (d : list (string * V)) (k : string) (v : V)
    : list (string * V) :=
  match d with
  | [] => [(k, v)]
  | (k', v') :: d' =>
      if k' =? k then (k', v) :: d' else (k', v') :: dict_set d' k v
  end.

(** [d[k]] ([None] for a [KeyError]). *)
Definition dict_get {V : Type} (d : list (string * V)) (k : string) : option V :=
  option_map snd (find (fun kv => fst kv =? k) d).

(** [f"{name} ({reg_no})"] *)
Definition option_label (st : Student) : string :=
  st.(name) ++ " (" ++ st.(reg_no) ++ ")".

(** [SELECT id, name, reg_no, barcode FROM students ORDER BY name] *)
Definition students_by_name (s : Store) : list Student :=
  order_by (fun x y => String.leb x.(name) y.(name)) s.(students).

(** The dict comprehension [{f"{name} ({reg_no})": (student_id, barcode)
    for ... in students}]. *)
Definition student_options (rows : list Student) : list (string * (N * string)) :=
  fold_left (fun d st => dict_set d (option_label st) (st.(id), st.(barcode)))
            rows [].

(** What the generator page shows for the chosen student. *)
Record GeneratedQr := mkGeneratedQr {
  g_selected : string;
  g_barcode : string;
  g_image : string;
  g_file_name : string }.

Inductive QrGeneratorResult :=
| GeneratorPage (single : option GeneratedQr) (bulk : option nat)
| NoStudentsWarning.

Section QrGenerator.

(** [generate_qr_code(data)]: the encoding collaborator (string to base64
    PNG). *)
Variable generate_qr_code : string -> string.

(** [qr_generator(conn)].  [selected] is the position of the chosen option
    in the select box (a select box always holds one of its options);
    [bulk] is the number the "Generated n QR codes" note reports. *)
Definition qr_generator (s : Store) (selected : nat)
    (generate_button bulk_button : bool) : QrGeneratorResult :=
  match students_by_name s with
  | [] => NoStudentsWarning
  | rows =>
      let options := student_options rows in
      let single :=
        match nth_error (map fst options) selected with
        | Some selected_student =>
            if PyStr.truthy selected_student && generate_button then
              match dict_get options selected_student with
              | Some (_, barcode0) =>
                  Some (mkGeneratedQr selected_student barcode0
                                      (generate_qr_code barcode0)
                                      (generator_file_name selected_student))
              | None => None
              end
            else None
        | None => None
        end in
      let bulk :=
        if bulk_button
        then Some (List.length (map (fun st => generate_qr_code st.(barcode)) rows))
        else None in
      GeneratorPage single bulk
  end.

End QrGenerator.

(** ** Reading a barcode back *)

(** The value of one hexadecimal digit (upper case). *)
Definition hex_value (c : ascii) : N :=
  let n := N_of_ascii c in
  if (n <=? 57)%N then (n - 48)%N else (n - 55)%N.

Fixpoint hex_number_from (acc : N) (s : string) : N :=
  match s with
  | EmptyString => acc
  | String c s' => hex_number_from (16 * acc + hex_value c) s'
  end.

(** [int(s, 16)] on a string of upper-case hexadecimal digits. *)
Definition hex_number (s : string) : N := hex_number_from 0 s.

(** ** Calendar order *)

(** [d1 <= d2] on [datetime.date] values. *)
Definition date_leb (d1 d2 : date) : bool :=
  (d1.(year) <? d2.(year))%nat
  || (d1.(year) =? d2.(year))%nat
     && ((d1.(month) <? d2.(month))%nat
         || (d1.(month) =? d2.(month))%nat && (d1.(day) <=? d2.(day))%nat).

(** The dates [strftime] prints in ten characters: four-digit years and
    two-digit months and days. *)
Definition printable (d : date) : Prop :=
  1000 <= d.(year) /\ d.(year) < 10 * 1000
  /\ d.(month) < 100 /\ d.(day) < 100.

(** The six departments, in the order of the select box. *)
Definition all_departments : list Department :=
  [ComputerScience; ElectronicsCommunication; Mechanical; Civil;
   ElectricalElectronics; InformationTechnology].

(** ** More invariants of the database *)

(** An upper-case hexadecimal digit. *)
Definition is_upper_hex (c : ascii) : bool :=
  let n := N_of_ascii c in
  ((48 <=? n) && (n <=? 57) || (65 <=? n) && (n <=? 70))%N.

Fixpoint all_chars (p : ascii -> bool) (s : string) : bool :=
  match s with
  | EmptyString => true
  | String c s' => p c && all_chars p s'
  end.

(** What the registration form guarantees of a stored student. *)
Definition student_ok (st : Student) : Prop :=
  st.(name) <> "" /\ st.(reg_no) <> "" /\ st.(parent_phone) <> ""
  /\ In st.(department) department_options
  /\ String.length st.(barcode) = 8
  /\ all_chars is_upper_hex st.(barcode) = true.

(** The keys of [students]: ids 1, 2, ... in insertion order, the counter at
    the last id, and no registration number or barcode stored twice. *)
Definition roster_keys_ok (s : Store) : Prop :=
  map id s.(students)
  = map N.of_nat (seq 1 (List.length s.(students)))
  /\ s.(students_seq) = N.of_nat (List.length s.(students))
  /\ NoDup (map reg_no s.(students))
  /\ NoDup (map barcode s.(students)).

(** The keys of [attendance]: ids 1, 2, ... in insertion order, and every
    [student_id] is the id of a stored student. *)
Definition attendance_keys_ok (s : Store) : Prop :=
  map a_id s.(attendance)
  = map N.of_nat (seq 1 (List.length s.(attendance)))
  /\ s.(attendance_seq) = N.of_nat (List.length s.(attendance))
  /\ Forall (fun a => In a.(student_id) (map id s.(students))) s.(attendance).

(** [l] begins with [l0]. *)
Definition extends {A : Type} (l0 l : list A) : Prop :=
  exists rest, l = (l0 ++ rest)%list.

(** [a.date BETWEEN lo AND hi] *)
Definition in_range (lo hi : string) (a : Attendance) : bool :=
  String.leb lo a.(a_date) && String.leb a.(a_date) hi.

(** A second scenario: two students in two departments. *)
Module Campus.

Definition register_b : Action :=
  Register true "B" "ME002" Mechanical "+15550102" Scenario.uuid_c.

Definition student_b : Student :=
  mkStudent 2 "B" "ME002" "Mechanical Engineering" "+15550102" "7B1E55D2".

(** A and B register; A checks in on 1 March, B on 1 and 4 March. *)
Definition history : list Action :=
  [Scenario.register_a; register_b;
   Scenario.scan_a (Scenario.march 1 8 30);
   Scan true "7B1E55D2" (Scenario.march 1 10 5) (Scenario.march 1 10 5)
        (Scenario.march 1 10 5);
   Scan true " 7B1E55D2 " (Scenario.march 4 11 0) (Scenario.march 4 11 0)
        (Scenario.march 4 11 0)].

Definition two_students : Store := run history init_database.

(** What follows: B scans again on 5 March, A once more on 1 March. *)
Definition later : list Action :=
  [Scan true "7B1E55D2" (Scenario.march 5 9 0) (Scenario.march 5 9 0)
        (Scenario.march 5 9 0);
   Scenario.scan_a (Scenario.march 1 9 15)].

(** A stand-in for the image encoder. *)
Definition png (data : string) : string := "png:" ++ data.

End Campus.

(** * Properties *)

(** The string renderings stay folded in proofs. *)
Arguments generate_unique_barcode : simpl never.
Arguments Strftime.ymd : simpl never.
Arguments Strftime.hms : simpl never.
Arguments determine_attendance_status : simpl never.
Arguments rate : simpl never.

(** ** Stripping and the shape of a barcode *)

Section Strip.

Import PyStr.

Lemma lstrip_app (a b : string) :
  lstrip (a ++ b) = if all_space a then lstrip b else lstrip a ++ b.
Proof.
  induction a as [|c a IH]; simpl; [reflexivity|].
  destruct (isspace c); simpl; [exact IH | reflexivity].
Qed.

Lemma lstrip_all_space (w : string) : all_space w = true -> lstrip w = "".
Proof.
  induction w as [|c w IH]; simpl; [reflexivity|].
  destruct (isspace c); simpl; [exact IH | discriminate].
Qed.

Lemma rstrip_all_space (w : string) : all_space w = true -> rstrip w = "".
Proof.
  induction w as [|c w IH]; simpl; [reflexivity|].
  destruct (isspace c); simpl; [|discriminate].
  intros H. now rewrite (IH H).
Qed.

Lemma rstrip_app_space (a w : string) :
  all_space w = true -> rstrip (a ++ w) = rstrip a.
Proof.
  intros Hw. induction a as [|c a IH]; simpl.
  - now apply rstrip_all_space.
  - now rewrite IH.
Qed.

Lemma all_space_app (a b : string) :
  all_space (a ++ b) = all_space a && all_space b.
Proof.
  induction a as [|c a IH]; simpl; [reflexivity|].
  now rewrite IH, andb_assoc.
Qed.

(** White space around a token does not change what [strip] returns. *)
Lemma strip_padded (w1 b w2 : string) :
  all_space w1 = true -> all_space w2 = true ->
  strip (w1 ++ b ++ w2) = strip b.
Proof.
  intros H1 H2. unfold strip.
  rewrite lstrip_app, H1, lstrip_app.
  destruct (all_space b) eqn:Hb.
  - rewrite (lstrip_all_space w2 H2), (lstrip_all_space b Hb). reflexivity.
  - now apply rstrip_app_space.
Qed.

Lemma lstrip_no_space (b : string) : no_space b = true -> lstrip b = b.
Proof.
  destruct b as [|c b]; simpl; [reflexivity|].
  now destruct (isspace c).
Qed.

Lemma rstrip_no_space (b : string) : no_space b = true -> rstrip b = b.
Proof.
  induction b as [|c b IH]; simpl; [reflexivity|].
  destruct (isspace c); simpl; [discriminate|].
  intros H. rewrite (IH H). now destruct b.
Qed.

Lemma strip_no_space (b : string) : no_space b = true -> strip b = b.
Proof.
  intros H. unfold strip. now rewrite lstrip_no_space, rstrip_no_space.
Qed.

(** An upper-cased hexadecimal digit is never white space. *)
Lemma hex_digit_not_space (d : N) :
  (d < 16)%N -> isspace (upper_char (Uuid.hex_digit d)) = false.
Proof.
  intros Hd.
  assert (E : (d = 0 \/ d = 1 \/ d = 2 \/ d = 3 \/ d = 4 \/ d = 5 \/ d = 6
               \/ d = 7 \/ d = 8 \/ d = 9 \/ d = 10 \/ d = 11 \/ d = 12
               \/ d = 13 \/ d = 14 \/ d = 15)%N) by lia.
  repeat (destruct E as [E|E]; [subst d; reflexivity|]).
  subst d; reflexivity.
Qed.

(** The barcode is the upper-cased first eight digits of the UUID. *)
Lemma barcode_digits (u : N) :
  generate_unique_barcode u
  = upper (Uuid.hex_digits 8 (u / 16 ^ 24)).
Proof.
  unfold generate_unique_barcode, Uuid.str.
  cbn [Uuid.hex_digits substring append upper].
  assert (E : forall k : N, (k < 8)%N ->
            ((u / 16 ^ 24 / 16 ^ k) mod 16 = (u / 16 ^ (24 + k)) mod 16)%N).
  { intros k _. rewrite N.pow_add_r, N.Div0.div_div. reflexivity. }
  change (N.of_nat 31) with (24 + 7)%N. change (N.of_nat 30) with (24 + 6)%N.
  change (N.of_nat 29) with (24 + 5)%N. change (N.of_nat 28) with (24 + 4)%N.
  change (N.of_nat 27) with (24 + 3)%N. change (N.of_nat 26) with (24 + 2)%N.
  change (N.of_nat 25) with (24 + 1)%N. change (N.of_nat 24) with (24 + 0)%N.
  change (N.of_nat 7) with 7%N. change (N.of_nat 6) with 6%N.
  change (N.of_nat 5) with 5%N. change (N.of_nat 4) with 4%N.
  change (N.of_nat 3) with 3%N. change (N.of_nat 2) with 2%N.
  change (N.of_nat 1) with 1%N. change (N.of_nat 0) with 0%N.
  rewrite !E by lia. reflexivity.
Qed.

Lemma upper_hex_no_space (k : nat) (n : N) :
  no_space (upper (Uuid.hex_digits k n)) = true.
Proof.
  induction k as [|k IH]; simpl; [reflexivity|].
  rewrite hex_digit_not_space by (apply N.mod_lt; discriminate).
  exact IH.
Qed.

Lemma barcode_no_space (u : N) :
  no_space (generate_unique_barcode u) = true.
Proof. rewrite barcode_digits. apply upper_hex_no_space. Qed.

Lemma barcode_truthy (u : N) : truthy (generate_unique_barcode u) = true.
Proof. rewrite barcode_digits. reflexivity. Qed.

End Strip.

(** ** What one page run does to the database *)

Lemma find_none_filter {A : Type} (f : A -> bool) (l : list A) :
  find f l = None -> filter f l = [].
Proof.
  induction l as [|x l IH]; simpl; [reflexivity|].
  destruct (f x); [discriminate | exact IH].
Qed.

Lemma find_some_filter {A : Type} (f : A -> bool) (l : list A) (x : A) :
  find f l = Some x -> exists rest, filter f l = x :: rest.
Proof.
  induction l as [|y l IH]; simpl; [discriminate|].
  destruct (f y).
  - intros [= ->]. now eexists.
  - exact IH.
Qed.

(** [register] either leaves the database alone or appends one student whose
    registration number and barcode were both new. *)
Lemma register_cases (s : Store) (n r : string) (d : Department) (p : string)
    (u : N) :
  snd (register s n r d p u) = s
  \/ (existsb (fun st => st.(barcode) =? generate_unique_barcode u) s.(students)
      = false
      /\ existsb (fun st => st.(reg_no) =? r) s.(students) = false
      /\ register s n r d p u
         = (RegistrationSuccessful n r (department_name d)
                                   (generate_unique_barcode u),
            mkStore (s.(students)
                       ++ [mkStudent (s.(students_seq) + 1) n r
                                     (department_name d) p
                                     (generate_unique_barcode u)])
                    s.(attendance) (s.(students_seq) + 1) s.(attendance_seq))).
Proof.
  unfold register, insert_student.
  destruct (PyStr.truthy n && PyStr.truthy r
            && PyStr.truthy (department_name d) && PyStr.truthy p);
    [|now left].
  destruct (existsb _ s.(students)) eqn:Eb; [now left|].
  destruct (existsb (fun st => st.(reg_no) =? r) s.(students)) eqn:Er;
    [now left|].
  right. repeat split; reflexivity.
Qed.

(** [record_checkin] either leaves the database alone or appends one row for
    a student who had none on that date. *)
Lemma record_checkin_cases (s : Store) (c : string) (t1 t2 t3 : datetime) :
  snd (record_checkin s c t1 t2 t3) = s
  \/ exists st,
       lookup_by_scan_id s (PyStr.strip c) = Some st
       /\ existing_record s st.(id) (Strftime.ymd t1.(on)) = None
       /\ snd (record_checkin s c t1 t2 t3)
          = insert_attendance s st.(id) (Strftime.ymd t1.(on)) (Strftime.hms t3)
                              (fst (determine_attendance_status t2)).
Proof.
  unfold record_checkin.
  destruct (lookup_by_scan_id s (PyStr.strip c)) as [st|]; [|now left].
  destruct (existing_record s st.(id) _) as [r|] eqn:Ex; [now left|].
  right. exists st. destruct (determine_attendance_status t2). now repeat split.
Qed.

Lemma register_student_snd (s : Store) (b : bool) (n r : string)
    (d : Department) (p : string) (u : N) :
  snd (register_student s b n r d p u) = s
  \/ snd (register_student s b n r d p u) = snd (register s n r d p u).
Proof.
  unfold register_student. destruct b; [|now left].
  right. now destruct (register s n r d p u).
Qed.

Lemma qr_scanner_snd (s : Store) (b : bool) (c : string) (t1 t2 t3 : datetime) :
  snd (qr_scanner s b c t1 t2 t3) = s
  \/ snd (qr_scanner s b c t1 t2 t3) = snd (record_checkin s c t1 t2 t3).
Proof.
  unfold qr_scanner. destruct (b && PyStr.truthy c); [|now left].
  right. now destruct (record_checkin s c t1 t2 t3).
Qed.

Lemma valid_status_determined (t : datetime) :
  valid_status (fst (determine_attendance_status t)).
Proof.
  unfold determine_attendance_status, valid_status.
  destruct (hour t <=? 9)%nat; [now left|].
  destruct (hour t <=? 10)%nat; simpl; auto.
Qed.

(** An invariant of both writing pages holds after every history. *)
Lemma run_invariant (P : Store -> Prop) :
  (forall s n r d p u, P s -> P (snd (register s n r d p u))) ->
  (forall s c t1 t2 t3, P s -> P (snd (record_checkin s c t1 t2 t3))) ->
  forall acts s, P s -> P (run acts s).
Proof.
  intros Hreg Hscan acts. unfold run.
  induction acts as [|a acts IH]; intros s Hs; simpl; [exact Hs|].
  apply IH. destruct a as [b n r d p u | b c t1 t2 t3]; simpl.
  - destruct (register_student_snd s b n r d p u) as [-> | ->]; auto.
  - destruct (qr_scanner_snd s b c t1 t2 t3) as [-> | ->]; auto.
Qed.

Lemma statuses_ok_run (acts : list Action) : statuses_ok (run acts init_database).
Proof.
  apply run_invariant.
  - intros s n r d p u H.
    destruct (register_cases s n r d p u) as [-> | (_ & _ & ->)]; exact H.
  - intros s c t1 t2 t3 H.
    destruct (record_checkin_cases s c t1 t2 t3) as [-> | (st & _ & _ & ->)];
      [exact H|].
    unfold statuses_ok, insert_attendance; simpl.
    apply Forall_app; split; [exact H|].
    constructor; [apply valid_status_determined | constructor].
  - constructor.
Qed.

Lemma existsb_false_not_in {A : Type} (f : A -> string) (v : string)
    (l : list A) :
  existsb (fun x => f x =? v) l = false -> ~ In v (map f l).
Proof.
  intros H Hin. apply in_map_iff in Hin as (x & <- & Hx).
  assert (E : existsb (fun y => f y =? f x) l = true).
  { apply existsb_exists. exists x. split; [exact Hx | apply String.eqb_refl]. }
  congruence.
Qed.

Lemma roster_ok_run (acts : list Action) : roster_ok (run acts init_database).
Proof.
  apply run_invariant.
  - intros s n r d p u [Hnd Hsp].
    destruct (register_cases s n r d p u) as [-> | (Hb & _ & ->)];
      [now split|].
    split; simpl.
    + rewrite map_app; simpl.
      apply (Permutation_NoDup
               (l := generate_unique_barcode u :: map barcode s.(students))).
      * apply Permutation_cons_append.
      * constructor; [now apply existsb_false_not_in | exact Hnd].
    + apply Forall_app; split; [exact Hsp|].
      constructor; [apply barcode_no_space | constructor].
  - intros s c t1 t2 t3 H.
    destruct (record_checkin_cases s c t1 t2 t3) as [-> | (st & _ & _ & ->)];
      exact H.
  - split; constructor.
Qed.

Lemma daily_unique_run (acts : list Action) :
  daily_unique (run acts init_database).
Proof.
  apply run_invariant.
  - intros s n r d p u H.
    destruct (register_cases s n r d p u) as [-> | (_ & _ & ->)]; exact H.
  - intros s c t1 t2 t3 H.
    destruct (record_checkin_cases s c t1 t2 t3) as [-> | (st & _ & Hex & ->)];
      [exact H|].
    intros sid d0. unfold records_for, insert_attendance.
    cbn [attendance]. rewrite filter_app, length_app.
    cbn [filter student_id a_date].
    destruct ((st.(id) =? sid)%N && (Strftime.ymd t1.(on) =? d0)) eqn:E;
      cbn [List.length].
    + apply andb_true_iff in E as [E1 E2].
      apply N.eqb_eq in E1. apply String.eqb_eq in E2. subst sid d0.
      unfold existing_record in Hex. rewrite (find_none_filter _ _ Hex).
      cbn [List.length]. lia.
    + rewrite Nat.add_0_r. exact (H sid d0).
  - intros sid d0. unfold records_for. simpl. lia.
Qed.

Lemma find_app_none {A : Type} (f : A -> bool) (l l' : list A) :
  find f l = None -> find f (l ++ l') = find f l'.
Proof.
  induction l as [|x l IH]; simpl; [reflexivity|].
  destruct (f x); [discriminate | exact IH].
Qed.

Lemma no_record_yet (s : Store) (sid : N) (d : string) :
  records_for s sid d = 0 -> existing_record s sid d = None.
Proof.
  unfold records_for, existing_record. intros H.
  destruct (find _ s.(attendance)) as [r|] eqn:E; [|reflexivity].
  apply find_some_filter in E as [rest E]. rewrite E in H. discriminate.
Qed.

(** In a roster without duplicate barcodes the lookup of a student's barcode
    returns that student. *)
Lemma find_by_barcode (l : list Student) (st : Student) :
  NoDup (map barcode l) -> In st l ->
  find (fun x => x.(barcode) =? st.(barcode)) l = Some st.
Proof.
  induction l as [|x l IH]; intros Hnd Hin; [destruct Hin|].
  simpl in Hnd. inversion Hnd as [|b bs Hnot Hnd']; subst.
  simpl. destruct (x.(barcode) =? st.(barcode)) eqn:E.
  - destruct Hin as [-> | Hin]; [reflexivity|].
    apply String.eqb_eq in E. exfalso. apply Hnot. rewrite E.
    now apply in_map.
  - destruct Hin as [-> | Hin]; [|now apply IH].
    now rewrite String.eqb_refl in E.
Qed.

(** ** The claims *)

(** C1: in every database reached from the empty one by any sequence of
    registrations and check-ins, each (student_id, date) pair has at most
    one attendance row; repeated submissions for the same student and day
    therefore never add a second row. *)
Theorem at_most_one_record_per_student_and_date :
  forall (acts : list Action) (student_id0 : N) (date0 : string),
    records_for (run acts init_database) student_id0 date0 <= 1.
Proof.
  intros acts. exact (daily_unique_run acts).
Qed.

(** C2: for a student the scanned codes resolve to, who has no row yet on
    the date, the first check-in is recorded; a second one on the same date
    reports "already marked" with the time and status of the row the first
    one stored, writes nothing, and leaves exactly one row for that student
    and date. *)
Theorem record_checkin_idempotent :
  forall (s : Store) (st : Student) (c1 c2 : string)
         (t1 t2 t3 t1' t2' t3' : datetime),
    lookup_by_scan_id s (PyStr.strip c1) = Some st ->
    lookup_by_scan_id s (PyStr.strip c2) = Some st ->
    records_for s st.(id) (Strftime.ymd t1.(on)) = 0 ->
    t1'.(on) = t1.(on) ->
    let today := Strftime.ymd t1.(on) in
    let status0 := fst (determine_attendance_status t2) in
    let s1 := snd (record_checkin s c1 t1 t2 t3) in
    fst (record_checkin s c1 t1 t2 t3)
    = AttendanceMarked st today (Strftime.hms t3) status0
                       (snd (determine_attendance_status t2))
    /\ existing_record s1 st.(id) today
       = Some (mkAttendance (s.(attendance_seq) + 1) st.(id) today
                            (Strftime.hms t3) status0)
    /\ record_checkin s1 c2 t1' t2' t3'
       = (AlreadyMarked st (Strftime.hms t3) status0, s1)
    /\ records_for s1 st.(id) today = 1.
Proof.
  intros s st c1 c2 t1 t2 t3 t1' t2' t3' L1 L2 H0 Hon today status0 s1.
  subst today status0 s1.
  pose proof (no_record_yet _ _ _ H0) as Hex.
  assert (E1 : record_checkin s c1 t1 t2 t3
               = (AttendanceMarked st (Strftime.ymd t1.(on)) (Strftime.hms t3)
                                   (fst (determine_attendance_status t2))
                                   (snd (determine_attendance_status t2)),
                  insert_attendance s st.(id) (Strftime.ymd t1.(on))
                                    (Strftime.hms t3)
                                    (fst (determine_attendance_status t2)))).
  { unfold record_checkin. rewrite L1, Hex.
    now destruct (determine_attendance_status t2). }
  rewrite E1. cbn [fst snd]. split; [reflexivity|].
  assert (Hnew : existing_record
                   (insert_attendance s st.(id) (Strftime.ymd t1.(on))
                      (Strftime.hms t3) (fst (determine_attendance_status t2)))
                   st.(id) (Strftime.ymd t1.(on))
                 = Some (mkAttendance (s.(attendance_seq) + 1) st.(id)
                           (Strftime.ymd t1.(on)) (Strftime.hms t3)
                           (fst (determine_attendance_status t2)))).
  { unfold existing_record, insert_attendance in *. cbn [attendance].
    rewrite (find_app_none _ _ _ Hex). cbn [find student_id a_date].
    now rewrite N.eqb_refl, String.eqb_refl. }
  split; [exact Hnew|]. split.
  - unfold record_checkin.
    change (lookup_by_scan_id (insert_attendance s st.(id) _ _ _))
      with (lookup_by_scan_id s).
    now rewrite L2, Hon, Hnew.
  - unfold records_for, insert_attendance in *. cbn [attendance].
    rewrite filter_app, length_app, H0.
    cbn [filter student_id a_date].
    now rewrite N.eqb_refl, String.eqb_refl.
Qed.

(** C3: the status depends on the hour alone: an hour of at most 9 gives
    'present', hour 10 gives 'late', a later hour gives 'absent'; the date,
    the minutes and the seconds play no part. *)
Theorem status_is_a_function_of_the_hour :
  forall (d : date) (h m sec : nat),
    let st := fst (determine_attendance_status (mkDatetime d h m sec)) in
    (h <= 9 -> st = "present")
    /\ (9 < h <= 10 -> st = "late")
    /\ (10 < h -> st = "absent")
    /\ (forall t : datetime,
          t.(hour) = h ->
          determine_attendance_status t
          = determine_attendance_status (mkDatetime d h m sec)).
Proof.
  intros d h m sec st. subst st. unfold determine_attendance_status.
  cbn [hour].
  repeat split.
  - intros H. apply Nat.leb_le in H. now rewrite H.
  - intros [H9 H10]. apply Nat.leb_gt in H9. apply Nat.leb_le in H10.
    now rewrite H9, H10.
  - intros H. assert (H9 : (h <=? 9)%nat = false) by (apply Nat.leb_gt; lia).
    apply Nat.leb_gt in H. now rewrite H9, H.
  - intros t ->. reflexivity.
Qed.

(** C5: a scanned text whose stripped form matches no student's barcode is
    answered with "invalid QR code" and the database is left as it was; on
    the page itself no run with such a text changes the database. *)
Theorem unknown_identifier_writes_nothing :
  forall (s : Store) (scanned_code : string) (t1 t2 t3 : datetime),
    lookup_by_scan_id s (PyStr.strip scanned_code) = None ->
    record_checkin s scanned_code t1 t2 t3 = (InvalidQRCode, s)
    /\ (forall b : bool,
          snd (qr_scanner s b scanned_code t1 t2 t3) = s
          /\ (b = true -> scanned_code <> "" ->
              fst (qr_scanner s b scanned_code t1 t2 t3) = Some InvalidQRCode)).
Proof.
  intros s c t1 t2 t3 H.
  assert (E : record_checkin s c t1 t2 t3 = (InvalidQRCode, s)).
  { unfold record_checkin. now rewrite H. }
  split; [exact E|]. intros b. unfold qr_scanner. rewrite E.
  split.
  - now destruct (b && PyStr.truthy c).
  - intros -> Hc. destruct c; [contradiction | reflexivity].
Qed.

(** *** Unicode white space around a barcode *)

Section TextStrip.

Import PyText.

Lemma text_lstrip_app (a b : text) :
  lstrip (a ++ b)%list
  = if forallb isspace a then lstrip b else (lstrip a ++ b)%list.
Proof.
  induction a as [|c a IH]; cbn [app lstrip forallb]; [reflexivity|].
  destruct (isspace c); cbn [andb]; [exact IH | reflexivity].
Qed.

Lemma text_lstrip_space (w : text) : forallb isspace w = true -> lstrip w = [].
Proof.
  induction w as [|c w IH]; cbn [lstrip forallb]; [reflexivity|].
  destruct (isspace c); cbn [andb]; [exact IH | discriminate].
Qed.

Lemma text_rstrip_space (w : text) : forallb isspace w = true -> rstrip w = [].
Proof.
  induction w as [|c w IH]; cbn [rstrip forallb]; [reflexivity|].
  destruct (isspace c); cbn [andb]; [|discriminate].
  intros H. now rewrite (IH H).
Qed.

Lemma text_rstrip_app_space (a w : text) :
  forallb isspace w = true -> rstrip (a ++ w)%list = rstrip a.
Proof.
  intros Hw. induction a as [|c a IH]; cbn [app rstrip].
  - now apply text_rstrip_space.
  - now rewrite IH.
Qed.

(** White space of any kind around a text does not change what [strip]
    returns. *)
Lemma text_strip_padded (w1 b w2 : text) :
  forallb isspace w1 = true -> forallb isspace w2 = true ->
  strip (w1 ++ b ++ w2)%list = strip b.
Proof.
  intros H1 H2. unfold strip.
  rewrite text_lstrip_app, H1, text_lstrip_app.
  destruct (forallb isspace b) eqn:Hb.
  - now rewrite (text_lstrip_space w2 H2), (text_lstrip_space b Hb).
  - now apply text_rstrip_app_space.
Qed.

(** On the characters of a stored string the two notions of white space
    agree. *)
Lemma isspace_of_ascii (c : ascii) : isspace (N_of_ascii c) = PyStr.isspace c.
Proof.
  destruct c as [[] [] [] [] [] [] [] []]; reflexivity.
Qed.

Lemma of_string_cons (c : ascii) (s : string) :
  of_string (String c s) = N_of_ascii c :: of_string s.
Proof. reflexivity. Qed.

Lemma of_string_nil_iff (s : string) : of_string s = [] <-> s = "".
Proof. destruct s; split; intros H; try reflexivity; discriminate. Qed.

Lemma lstrip_of_string (s : string) :
  lstrip (of_string s) = of_string (PyStr.lstrip s).
Proof.
  induction s as [|c s IH]; [reflexivity|].
  rewrite of_string_cons. cbn [lstrip PyStr.lstrip].
  rewrite isspace_of_ascii. destruct (PyStr.isspace c); [exact IH|].
  now rewrite of_string_cons.
Qed.

Lemma rstrip_of_string (s : string) :
  rstrip (of_string s) = of_string (PyStr.rstrip s).
Proof.
  induction s as [|c s IH]; [reflexivity|].
  rewrite of_string_cons. cbn [rstrip PyStr.rstrip].
  rewrite IH, isspace_of_ascii.
  destruct (PyStr.rstrip s) as [|c' r].
  - cbn [of_string list_ascii_of_string map].
    now destruct (PyStr.isspace c).
  - now rewrite !of_string_cons.
Qed.

(** On a stored string the Unicode [strip] is the [strip] of strings. *)
Lemma strip_of_string (s : string) :
  strip (of_string s) = of_string (PyStr.strip s).
Proof.
  unfold strip, PyStr.strip. now rewrite lstrip_of_string, rstrip_of_string.
Qed.

Lemma N_of_ascii_eqb (x y : ascii) :
  (N_of_ascii x =? N_of_ascii y)%N = Ascii.eqb x y.
Proof.
  destruct (Ascii.eqb_spec x y) as [-> | Hne].
  - apply N.eqb_refl.
  - apply N.eqb_neq. intros E. apply Hne.
    now rewrite <- (ascii_N_embedding x), <- (ascii_N_embedding y), E.
Qed.

Lemma eqb_of_string (a b : string) :
  eqb (of_string a) (of_string b) = String.eqb a b.
Proof.
  revert b. induction a as [|x a IH]; intros [|y b]; try reflexivity.
  rewrite !of_string_cons. cbn [eqb String.eqb].
  rewrite N_of_ascii_eqb, IH. now destruct (Ascii.eqb x y).
Qed.

Lemma lookup_text_of_string (s : Store) (c : string) :
  lookup_by_scan_text s (of_string c) = lookup_by_scan_id s c.
Proof.
  unfold lookup_by_scan_text, lookup_by_scan_id.
  induction s.(students) as [|st l IH]; [reflexivity|].
  cbn [find]. now rewrite eqb_of_string, IH.
Qed.

(** On a scanned text without characters beyond the stored ones, the
    check-in is the one of strings. *)
Lemma record_checkin_text_of_string (s : Store) (c : string)
    (t1 t2 t3 : datetime) :
  record_checkin_text s (of_string c) t1 t2 t3 = record_checkin s c t1 t2 t3.
Proof.
  unfold record_checkin_text, record_checkin.
  now rewrite strip_of_string, lookup_text_of_string.
Qed.

End TextStrip.

(** What a check-in that resolves to [st] returns and writes. *)
Lemma record_checkin_resolved (s : Store) (st : Student) (c : string)
    (t1 t2 t3 : datetime) :
  lookup_by_scan_id s (PyStr.strip c) = Some st ->
  record_checkin s c t1 t2 t3
  = match existing_record s st.(id) (Strftime.ymd t1.(on)) with
    | Some r => (AlreadyMarked st r.(a_time) r.(status), s)
    | None =>
        (AttendanceMarked st (Strftime.ymd t1.(on)) (Strftime.hms t3)
                          (fst (determine_attendance_status t2))
                          (snd (determine_attendance_status t2)),
         insert_attendance s st.(id) (Strftime.ymd t1.(on)) (Strftime.hms t3)
                           (fst (determine_attendance_status t2)))
    end.
Proof.
  intros L. unfold record_checkin. rewrite L.
  destruct (existing_record s st.(id) _); [reflexivity|].
  now destruct (determine_attendance_status t2).
Qed.

(** C10: in every reachable database, a scanned text made of a registered
    student's barcode with white space of any kind (Unicode included)
    before and after it is stripped to the barcode and resolves to that
    very student: the check-in returns "already marked" for that student
    when a row of the day exists and otherwise marks attendance for that
    student, exactly as the check-in with the bare barcode does. *)
Theorem checkin_strips_surrounding_whitespace :
  forall (acts : list Action) (st : Student) (w1 w2 : PyText.text)
         (t1 t2 t3 : datetime),
    In st (run acts init_database).(students) ->
    forallb PyText.isspace w1 = true -> forallb PyText.isspace w2 = true ->
    let s := run acts init_database in
    let padded := (w1 ++ PyText.of_string st.(barcode) ++ w2)%list in
    let resolved :=
      match existing_record s st.(id) (Strftime.ymd t1.(on)) with
      | Some r => (AlreadyMarked st r.(a_time) r.(status), s)
      | None =>
          (AttendanceMarked st (Strftime.ymd t1.(on)) (Strftime.hms t3)
                            (fst (determine_attendance_status t2))
                            (snd (determine_attendance_status t2)),
           insert_attendance s st.(id) (Strftime.ymd t1.(on))
                             (Strftime.hms t3)
                             (fst (determine_attendance_status t2)))
      end in
    PyText.strip padded = PyText.of_string st.(barcode)
    /\ lookup_by_scan_text s (PyText.strip padded) = Some st
    /\ record_checkin_text s padded t1 t2 t3 = resolved
    /\ record_checkin s st.(barcode) t1 t2 t3 = resolved
    /\ forall v1 v2 : string,
         PyStr.all_space v1 = true -> PyStr.all_space v2 = true ->
         lookup_by_scan_id s (PyStr.strip (v1 ++ st.(barcode) ++ v2)) = Some st
         /\ record_checkin s (v1 ++ st.(barcode) ++ v2) t1 t2 t3 = resolved.
Proof.
  intros acts st w1 w2 t1 t2 t3 Hin H1 H2 s padded resolved.
  destruct (roster_ok_run acts) as [Hnd Hsp]. fold s in Hnd, Hsp, Hin.
  assert (Hb : PyStr.strip st.(barcode) = st.(barcode)).
  { apply strip_no_space. rewrite Forall_forall in Hsp. now apply Hsp. }
  assert (L : lookup_by_scan_id s st.(barcode) = Some st)
    by now apply find_by_barcode.
  assert (Hstrip : PyText.strip padded = PyText.of_string st.(barcode)).
  { subst padded. rewrite text_strip_padded by assumption.
    now rewrite strip_of_string, Hb. }
  assert (Hbare : record_checkin s st.(barcode) t1 t2 t3 = resolved).
  { apply record_checkin_resolved. now rewrite Hb. }
  split; [exact Hstrip|]. split; [|split; [|split; [exact Hbare|]]].
  - now rewrite Hstrip, lookup_text_of_string.
  - rewrite <- Hbare, <- record_checkin_text_of_string.
    unfold record_checkin_text. now rewrite Hstrip, strip_of_string, Hb.
  - intros v1 v2 Hv1 Hv2.
    assert (Lv : lookup_by_scan_id s (PyStr.strip (v1 ++ st.(barcode) ++ v2))
                 = Some st)
      by now rewrite strip_padded, Hb by assumption.
    split; [exact Lv|]. now apply record_checkin_resolved.
Qed.

(** *** Registration *)

Lemma truthy_nonempty (x : string) : x <> "" -> PyStr.truthy x = true.
Proof. destruct x; [contradiction | reflexivity]. Qed.

Lemma department_name_truthy (d : Department) :
  PyStr.truthy (department_name d) = true.
Proof. now destruct d. Qed.

(** With the three text fields filled in, [register] is decided by the two
    uniqueness checks of the insert. *)
Lemma register_filled (s : Store) (n r : string) (d : Department) (p : string)
    (u : N) :
  n <> "" -> r <> "" -> p <> "" ->
  register s n r d p u
  = if existsb (fun st => st.(barcode) =? generate_unique_barcode u)
               s.(students)
    then (DatabaseError "UNIQUE constraint failed: students.barcode", s)
    else if existsb (fun st => st.(reg_no) =? r) s.(students)
    then (RegistrationFailed r, s)
    else (RegistrationSuccessful n r (department_name d)
                                 (generate_unique_barcode u),
          mkStore (s.(students)
                     ++ [mkStudent (s.(students_seq) + 1) n r
                                   (department_name d) p
                                   (generate_unique_barcode u)])
                  s.(attendance) (s.(students_seq) + 1) s.(attendance_seq)).
Proof.
  intros Hn Hr Hp. unfold register, insert_student.
  rewrite (truthy_nonempty n Hn), (truthy_nonempty r Hr),
    (truthy_nonempty p Hp), department_name_truthy.
  cbn [andb].
  destruct (existsb _ s.(students)); [reflexivity|].
  destruct (existsb (fun st => st.(reg_no) =? r) s.(students)); reflexivity.
Qed.

(** C4 (as the code has it): a barcode that collides with a stored one is
    not drawn again; the insert is rejected, the database stays as it was
    and the page shows the database error.  The duplicate-registration
    message appears only when the registration number is already stored. *)
Theorem scan_id_collision_is_reported_not_retried :
  forall (s : Store) (n r : string) (d : Department) (p : string) (u : N),
    (n <> "" -> r <> "" -> p <> "" ->
     existsb (fun st => st.(barcode) =? generate_unique_barcode u) s.(students)
     = true ->
     register s n r d p u
     = (DatabaseError "UNIQUE constraint failed: students.barcode", s))
    /\ (forall r' : string,
          fst (register s n r d p u) = RegistrationFailed r' ->
          r' = r
          /\ existsb (fun st => st.(reg_no) =? r) s.(students) = true).
Proof.
  intros s n r d p u. split.
  - intros Hn Hr Hp Hb. now rewrite register_filled, Hb.
  - intros r'. unfold register, insert_student.
    destruct (PyStr.truthy n && PyStr.truthy r
              && PyStr.truthy (department_name d) && PyStr.truthy p);
      [|discriminate].
    destruct (existsb _ s.(students)); [discriminate|].
    destruct (existsb (fun st => st.(reg_no) =? r) s.(students));
      [|discriminate].
    cbn. intros [= ->]. now split.
Qed.

(** C6: when a registration with a new registration number and a new
    barcode is followed by one with the same registration number, the first
    is stored and the second is refused with an integrity error (the
    duplicate-registration message, unless its barcode collides too) and
    leaves the database exactly as the first left it. *)
Theorem duplicate_registration_number_is_refused :
  forall (s : Store) (n r : string) (d : Department) (p : string) (u : N)
         (n' : string) (d' : Department) (p' : string) (u' : N),
    n <> "" -> r <> "" -> p <> "" -> n' <> "" -> p' <> "" ->
    existsb (fun st => st.(reg_no) =? r) s.(students) = false ->
    existsb (fun st => st.(barcode) =? generate_unique_barcode u) s.(students)
    = false ->
    let s1 := snd (register s n r d p u) in
    fst (register s n r d p u)
    = RegistrationSuccessful n r (department_name d) (generate_unique_barcode u)
    /\ s1.(students)
       = (s.(students)
            ++ [mkStudent (s.(students_seq) + 1) n r (department_name d) p
                          (generate_unique_barcode u)])%list
    /\ integrity_error (fst (register s1 n' r d' p' u')) = true
    /\ snd (register s1 n' r d' p' u') = s1
    /\ (existsb (fun st => st.(barcode) =? generate_unique_barcode u')
                s1.(students) = false ->
        fst (register s1 n' r d' p' u') = RegistrationFailed r).
Proof.
  intros s n r d p u n' d' p' u' Hn Hr Hp Hn' Hp' Hreg Hbar s1. subst s1.
  rewrite (register_filled s n r d p u Hn Hr Hp), Hbar, Hreg. cbn [fst snd].
  split; [reflexivity|]. split; [reflexivity|].
  rewrite (register_filled _ n' r d' p' u' Hn' Hr Hp'). cbn [students].
  assert (E : existsb (fun st => st.(reg_no) =? r)
                (s.(students)
                   ++ [mkStudent (s.(students_seq) + 1) n r (department_name d)
                                 p (generate_unique_barcode u)])%list = true).
  { rewrite existsb_app. cbn [existsb reg_no]. rewrite String.eqb_refl.
    now rewrite orb_true_r. }
  rewrite E.
  destruct (existsb (fun st => st.(barcode) =? generate_unique_barcode u') _);
    cbn [fst snd integrity_error].
  - split; [reflexivity|]. split; [reflexivity | discriminate].
  - split; [reflexivity|]. split; reflexivity.
Qed.

(** C7: the department the form submits is always one of the six listed
    ones; a submission with an empty name, registration number or parent
    phone is answered with "incomplete information" and stores nothing,
    and a submission with all three filled in passes the validation. *)
Theorem register_requires_all_fields :
  forall (s : Store) (n r : string) (d : Department) (p : string) (u : N),
    (In (department_name d) department_options /\ department_name d <> "")
    /\ (n = "" \/ r = "" \/ p = "" ->
        register s n r d p u = (IncompleteInformation, s))
    /\ (n <> "" -> r <> "" -> p <> "" ->
        fst (register s n r d p u) <> IncompleteInformation).
Proof.
  intros s n r d p u. split; [|split].
  - split; [destruct d; simpl; tauto | destruct d; discriminate].
  - unfold register. intros [-> | [-> | ->]]; cbn [PyStr.truthy andb].
    + reflexivity.
    + now rewrite andb_false_r.
    + now rewrite andb_false_r.
  - intros Hn Hr Hp. rewrite register_filled by assumption.
    destruct (existsb _ _); [discriminate|].
    destruct (existsb _ _); discriminate.
Qed.

(** *** Reports *)

Lemma insert_by_perm {A : Type} (before : A -> A -> bool) (x : A) (l : list A) :
  Permutation (insert_by before x l) (x :: l).
Proof.
  induction l as [|y l IH]; simpl; [reflexivity|].
  destruct (before x y); [reflexivity|].
  rewrite IH. apply perm_swap.
Qed.

(** [ORDER BY] only rearranges the rows. *)
Lemma order_by_perm {A : Type} (before : A -> A -> bool) (l : list A) :
  Permutation (order_by before l) l.
Proof.
  induction l as [|x l IH]; simpl; [reflexivity|].
  rewrite insert_by_perm. now constructor.
Qed.

(** Rows whose status is one of the three values are counted exactly once
    by the three status counts. *)
Lemma count_status_partition (rows : list ReportRow) :
  Forall (fun r => valid_status r.(r_status)) rows ->
  count_status "present" rows + count_status "late" rows
  + count_status "absent" rows = List.length rows.
Proof.
  unfold count_status.
  induction 1 as [|r rows Hr _ IH]; [reflexivity|].
  cbn [filter List.length].
  destruct Hr as [E | [E | E]]; rewrite E; cbn [String.eqb Ascii.eqb Bool.eqb];
    cbn [List.length]; lia.
Qed.

(** Every row of the report carries the status of an attendance row. *)
Lemma report_data_statuses (s : Store) (d1 d2 : date) (f : option Department) :
  statuses_ok s ->
  Forall (fun r => valid_status r.(r_status)) (report_data s d1 d2 f).
Proof.
  intros Hs. unfold report_data.
  eapply Permutation_Forall; [symmetry; apply order_by_perm|].
  apply Forall_forall. intros r Hr.
  apply in_flat_map in Hr as (a & Ha & Hr).
  apply in_flat_map in Hr as (st & _ & Hr).
  destruct (_ && _) in Hr; [|destruct Hr].
  destruct Hr as [<- | []]. cbn [r_status].
  unfold statuses_ok in Hs. rewrite Forall_forall in Hs. now apply Hs.
Qed.

(** C8: in every reachable database and for every date range and optional
    department, the present, late and absent counts of the report add up to
    the number of its rows, and the summary the page shows carries exactly
    these counts. *)
Theorem summary_counts_partition_total :
  forall (acts : list Action) (start_date end_date : date)
         (department_filter : option Department),
    let s := run acts init_database in
    let rows := report_data s start_date end_date department_filter in
    count_status "present" rows + count_status "late" rows
    + count_status "absent" rows = List.length rows
    /\ match generate_report s start_date end_date department_filter with
       | SummaryStatistics total present late absent shown =>
           present + late + absent = total /\ 0 < total /\ shown = rows
       | NoRecordsFound => rows = []
       end.
Proof.
  intros acts d1 d2 f s rows.
  assert (H : count_status "present" rows + count_status "late" rows
              + count_status "absent" rows = List.length rows).
  { apply count_status_partition, report_data_statuses, statuses_ok_run. }
  split; [exact H|].
  unfold generate_report. fold s. fold rows.
  destruct rows as [|r rows']; [reflexivity|].
  split; [exact H|]. split; [simpl; lia | reflexivity].
Qed.

(** *** Per-student statistics *)

Lemma count_for_le_total (s : Store) (st : Student) (keep : Attendance -> bool) :
  count_for s st keep <= count_for s st (fun _ => true).
Proof.
  unfold count_for. induction s.(attendance) as [|a l IH]; [constructor|].
  cbn [filter]. destruct (st.(id) =? a.(student_id))%N; cbn [andb]; [|exact IH].
  destruct (keep a); cbn [List.length]; lia.
Qed.

Lemma students_data_students (s : Store) :
  Permutation (map student (students_data s)) s.(students).
Proof.
  unfold students_data. rewrite map_map. cbn [stats_row student].
  rewrite map_id. apply order_by_perm.
Qed.

(** C9 (as the code has it): the statistics hold one row per registered
    student, with or without attendance; a row's counts are the numbers of
    that student's attendance rows, its rate is
    (present + late) / total * 100 computed in float64 with a zero total
    replaced by 1 and the result rounded to one decimal; a student without
    records has rate 0, is shown rate 0 and total 0. *)
Theorem per_student_stats_cover_every_student :
  forall s : Store,
    Permutation (map student (students_data s)) s.(students)
    /\ (forall row : StudentStats,
          In row (students_data s) ->
          row.(total_attendance) = count_for s row.(student) (fun _ => true)
          /\ row.(present_count)
             = count_for s row.(student) (fun a => a.(status) =? "present")
          /\ row.(late_count)
             = count_for s row.(student) (fun a => a.(status) =? "late")
          /\ row.(absent_count)
             = count_for s row.(student) (fun a => a.(status) =? "absent")
          /\ row.(attendance_rate)
             = Float64.round1
                 (Float64.of_nat (row.(present_count) + row.(late_count))
                  / Float64.of_nat (replace_0_1 row.(total_attendance))
                  * 100)%float
          /\ (row.(total_attendance) = 0 ->
              row.(attendance_rate) = 0%float /\ shown_rate row = PyInt 0))
    /\ (s.(students) <> [] ->
        all_students s
        = Some (map (fun row => mkStudentCard row row.(total_attendance)
                                              (shown_rate row))
                    (students_data s)))
    /\ (s.(students) = [] -> all_students s = None).
Proof.
  intros s. split; [apply students_data_students|]. split; [|split].
  - intros row Hrow. unfold students_data in Hrow.
    apply in_map_iff in Hrow as (st & <- & _).
    cbn [stats_row total_attendance present_count late_count absent_count
         student attendance_rate].
    repeat (split; [reflexivity|]).
    intros H0.
    pose proof (count_for_le_total s st (fun a => a.(status) =? "present")) as Hp.
    pose proof (count_for_le_total s st (fun a => a.(status) =? "late")) as Hl.
    rewrite H0 in Hp, Hl. apply Nat.le_0_r in Hp, Hl.
    unfold shown_rate.
    cbn [stats_row total_attendance attendance_rate].
    rewrite H0, Hp, Hl. split; reflexivity.
  - intros Hne. unfold all_students.
    destruct (students_data s) as [|row rows] eqn:E; [|reflexivity].
    pose proof (students_data_students s) as HP. rewrite E in HP.
    cbn [map] in HP. apply Permutation_nil in HP. contradiction.
  - intros Hnil. unfold all_students, students_data. now rewrite Hnil.
Qed.

(** ** The scenario, through the theorems above *)

Import Scenario.

(** The rate of a student with one check-in on time out of three is shown
    as 33.3, which is not (1 + 0) / 3 * 100: the rate column is rounded. *)
Lemma rate_column_is_rounded :
  map (fun row =>
         (row.(total_attendance), row.(present_count), row.(late_count),
          row.(absent_count), row.(attendance_rate)))
      (students_data three_days)
  = [(3, 1, 0, 2, (Float64.of_nat 333 / 10)%float)]
  /\ (Float64.of_nat 333 / 10
      =? Float64.of_nat (1 + 0) / Float64.of_nat 3 * 100)%float = false.
Proof. split; vm_compute; reflexivity. Qed.

(** A second student whose UUID shares the first eight digits with the
    first one's is turned away with the database error, although the
    registration number is new. *)
Lemma barcode_collision_reaches_the_page :
  existsb (fun st => st.(reg_no) =? "CS002") roster.(students) = false
  /\ uuid_b <> uuid_a
  /\ register roster "B" "CS002" Civil "+15550101" uuid_b
     = (DatabaseError "UNIQUE constraint failed: students.barcode", roster).
Proof.
  split; [reflexivity|]. split; [discriminate|]. vm_compute. reflexivity.
Qed.

Lemma record_checkin_idempotent_scenario :
  let s1 := snd (record_checkin roster "3F2A9C10" (march 1 8 30) (march 1 8 30)
                                (march 1 8 30)) in
  fst (record_checkin roster "3F2A9C10" (march 1 8 30) (march 1 8 30)
                      (march 1 8 30))
  = AttendanceMarked student_a "2024-03-01" "08:30:00" "present" Green
  /\ existing_record s1 1 "2024-03-01"
     = Some (mkAttendance 1 1 "2024-03-01" "08:30:00" "present")
  /\ record_checkin s1 "3F2A9C10" (march 1 9 15) (march 1 9 15) (march 1 9 15)
     = (AlreadyMarked student_a "08:30:00" "present", s1)
  /\ records_for s1 1 "2024-03-01" = 1.
Proof.
  exact (record_checkin_idempotent roster student_a "3F2A9C10" "3F2A9C10"
           (march 1 8 30) (march 1 8 30) (march 1 8 30)
           (march 1 9 15) (march 1 9 15) (march 1 9 15)
           eq_refl eq_refl eq_refl eq_refl).
Defined.

Lemma status_by_hour_scenario :
  fst (determine_attendance_status (march 1 9 59)) = "present"
  /\ fst (determine_attendance_status (march 1 10 0)) = "late"
  /\ fst (determine_attendance_status (march 1 11 0)) = "absent"
  /\ fst (determine_attendance_status (march 1 0 0)) = "present".
Proof.
  split; [|split; [|split]].
  - apply (status_is_a_function_of_the_hour (mkDate 2024 3 1) 9 59 0). lia.
  - apply (status_is_a_function_of_the_hour (mkDate 2024 3 1) 10 0 0). lia.
  - apply (status_is_a_function_of_the_hour (mkDate 2024 3 1) 11 0 0). lia.
  - apply (status_is_a_function_of_the_hour (mkDate 2024 3 1) 0 0 0). lia.
Defined.

Lemma barcode_collision_scenario :
  register roster "B" "CS002" Civil "+15550101" uuid_b
  = (DatabaseError "UNIQUE constraint failed: students.barcode", roster).
Proof.
  apply (proj1 (scan_id_collision_is_reported_not_retried
                  roster "B" "CS002" Civil "+15550101" uuid_b));
    [discriminate | discriminate | discriminate | reflexivity].
Defined.

Lemma unknown_identifier_scenario :
  lookup_by_scan_id roster (PyStr.strip "UNKNOWN") = None
  /\ record_checkin roster "UNKNOWN" (march 1 8 30) (march 1 8 30)
                    (march 1 8 30)
     = (InvalidQRCode, roster).
Proof.
  split; [reflexivity|].
  apply (unknown_identifier_writes_nothing roster "UNKNOWN").
  reflexivity.
Defined.

Lemma duplicate_registration_scenario :
  let s1 := snd (register init_database "A" "CS001" ComputerScience "+15550100"
                          uuid_a) in
  fst (register init_database "A" "CS001" ComputerScience "+15550100" uuid_a)
  = RegistrationSuccessful "A" "CS001" "Computer Science and Engineering"
                           "3F2A9C10"
  /\ fst (register s1 "B" "CS001" Civil "+15550101" uuid_c)
     = RegistrationFailed "CS001"
  /\ snd (register s1 "B" "CS001" Civil "+15550101" uuid_c) = s1.
Proof.
  destruct (duplicate_registration_number_is_refused
              init_database "A" "CS001" ComputerScience "+15550100" uuid_a
              "B" Civil "+15550101" uuid_c)
    as (H1 & _ & _ & H4 & H5);
    [discriminate | discriminate | discriminate | discriminate | discriminate
    | reflexivity | reflexivity |].
  split; [exact H1|]. split; [|exact H4].
  apply H5. reflexivity.
Defined.

Lemma register_validation_scenario :
  register roster "" "CS002" Civil "+15550101" uuid_c
  = (IncompleteInformation, roster)
  /\ fst (register roster "B" "CS002" Civil "+15550101" uuid_c)
     <> IncompleteInformation.
Proof.
  destruct (register_requires_all_fields roster "" "CS002" Civil "+15550101"
              uuid_c) as (_ & H & _).
  destruct (register_requires_all_fields roster "B" "CS002" Civil "+15550101"
              uuid_c) as (_ & _ & H').
  split; [apply H; now left | apply H'; discriminate].
Defined.

Lemma per_student_stats_scenario :
  map student (students_data roster) = [student_a]
  /\ forall row, In row (students_data roster) ->
       row.(total_attendance) = 0
       /\ row.(attendance_rate) = 0%float /\ shown_rate row = PyInt 0.
Proof.
  split; [reflexivity|]. intros row Hrow.
  destruct (per_student_stats_cover_every_student roster) as (_ & H & _).
  destruct (H row Hrow) as (Ht & _ & _ & _ & _ & H0).
  assert (E : row.(total_attendance) = 0).
  { rewrite Ht. destruct Hrow as [<- | []]. reflexivity. }
  split; [exact E | exact (H0 E)].
Defined.

Lemma checkin_strips_whitespace_scenario :
  In student_a (run [register_a] init_database).(students)
  /\ record_checkin_text (run [register_a] init_database)
       ([12288; 32] ++ PyText.of_string "3F2A9C10" ++ [8195; 10])%N%list
       (march 1 8 30) (march 1 8 30) (march 1 8 30)
     = (AttendanceMarked student_a "2024-03-01" "08:30:00" "present" Green,
        insert_attendance (run [register_a] init_database) 1 "2024-03-01"
                          "08:30:00" "present")
  /\ record_checkin (run [register_a] init_database) ("  " ++ "3F2A9C10" ++ " ")
                    (march 1 8 30) (march 1 8 30) (march 1 8 30)
     = (AttendanceMarked student_a "2024-03-01" "08:30:00" "present" Green,
        insert_attendance (run [register_a] init_database) 1 "2024-03-01"
                          "08:30:00" "present").
Proof.
  split; [left; reflexivity|].
  destruct (checkin_strips_surrounding_whitespace
              [register_a] student_a [12288; 32]%N [8195; 10]%N
              (march 1 8 30) (march 1 8 30) (march 1 8 30))
    as (_ & _ & Htext & _ & Hstr);
    [left; reflexivity | reflexivity | reflexivity |].
  split; [exact Htext|].
  exact (proj2 (Hstr "  " " " eq_refl eq_refl)).
Defined.

(** * Further properties of the pages *)

(** ** The barcode *)

Lemma hex_digit_shape (d : N) :
  (d < 16)%N ->
  is_upper_hex (PyStr.upper_char (Uuid.hex_digit d)) = true
  /\ hex_value (PyStr.upper_char (Uuid.hex_digit d)) = d.
Proof.
  intros Hd.
  assert (E : (d = 0 \/ d = 1 \/ d = 2 \/ d = 3 \/ d = 4 \/ d = 5 \/ d = 6
               \/ d = 7 \/ d = 8 \/ d = 9 \/ d = 10 \/ d = 11 \/ d = 12
               \/ d = 13 \/ d = 14 \/ d = 15)%N) by lia.
  repeat (destruct E as [E|E]; [subst d; split; reflexivity|]).
  subst d; split; reflexivity.
Qed.

Lemma upper_hex_digits_shape (k : nat) (n : N) :
  String.length (PyStr.upper (Uuid.hex_digits k n)) = k
  /\ all_chars is_upper_hex (PyStr.upper (Uuid.hex_digits k n)) = true.
Proof.
  induction k as [|k [IH1 IH2]]; [now split|].
  cbn [Uuid.hex_digits PyStr.upper String.length all_chars].
  rewrite IH1, IH2.
  destruct (hex_digit_shape ((n / 16 ^ N.of_nat k) mod 16)) as [-> _];
    [apply N.mod_lt; discriminate | now split].
Qed.

Lemma hex_number_of_digits (k : nat) (n acc : N) :
  hex_number_from acc (PyStr.upper (Uuid.hex_digits k n))
  = (acc * 16 ^ N.of_nat k + n mod 16 ^ N.of_nat k)%N.
Proof.
  revert acc. induction k as [|k IH]; intros acc.
  - cbn [Uuid.hex_digits PyStr.upper hex_number_from].
    change (N.of_nat 0) with 0%N. rewrite N.pow_0_r, N.mod_1_r. lia.
  - cbn [Uuid.hex_digits PyStr.upper hex_number_from].
    destruct (hex_digit_shape ((n / 16 ^ N.of_nat k) mod 16)) as [_ ->];
      [apply N.mod_lt; discriminate|].
    assert (E : (16 ^ N.succ (N.of_nat k) = 16 ^ N.of_nat k * 16)%N)
      by (rewrite N.pow_succ_r'; ring).
    rewrite IH, Nat2N.inj_succ, E, (N.Div0.mod_mul_r n _ 16).
    ring.
Qed.

(** X1: the barcode of any UUID is eight upper-case hexadecimal digits, and
    read back as a hexadecimal number it is the UUID's integer shifted right
    by 96 bits (its first 32 bits, for a 128-bit UUID). *)
Theorem barcode_is_the_first_32_bits_in_hex :
  forall u : N,
    String.length (generate_unique_barcode u) = 8
    /\ all_chars is_upper_hex (generate_unique_barcode u) = true
    /\ hex_number (generate_unique_barcode u) = ((u / 2 ^ 96) mod 2 ^ 32)%N.
Proof.
  intros u. rewrite barcode_digits.
  destruct (upper_hex_digits_shape 8 (u / 16 ^ 24)) as [H1 H2].
  split; [exact H1|]. split; [exact H2|].
  unfold hex_number. rewrite hex_number_of_digits.
  change (16 ^ 24)%N with (2 ^ 96)%N.
  change (16 ^ N.of_nat 8)%N with (2 ^ 32)%N. lia.
Qed.

(** X2: two 128-bit UUIDs get the same barcode exactly when their first 32
    bits agree. *)
Theorem barcodes_collide_iff_first_32_bits_agree :
  forall u u' : N,
    (u < 2 ^ 128)%N -> (u' < 2 ^ 128)%N ->
    (generate_unique_barcode u = generate_unique_barcode u'
     <-> (u / 2 ^ 96 = u' / 2 ^ 96)%N).
Proof.
  intros u u' Hu Hu'.
  assert (B : forall v : N, (v < 2 ^ 128)%N ->
              hex_number (generate_unique_barcode v) = (v / 2 ^ 96)%N).
  { intros v Hv. rewrite barcode_digits. unfold hex_number.
    rewrite hex_number_of_digits.
    change (16 ^ 24)%N with (2 ^ 96)%N.
    change (16 ^ N.of_nat 8)%N with (2 ^ 32)%N.
    rewrite N.mod_small; [lia|].
    apply N.Div0.div_lt_upper_bound.
    change (2 ^ 96 * 2 ^ 32)%N with (2 ^ 128)%N. exact Hv. }
  split.
  - intros E. rewrite <- (B u Hu), <- (B u' Hu'). now rewrite E.
  - intros E. rewrite !barcode_digits.
    change (16 ^ 24)%N with (2 ^ 96)%N. now rewrite E.
Qed.

(** ** Registration and the roster *)

(** The four ways a submission can end. *)
Lemma register_outcomes (s : Store) (n r : string) (d : Department)
    (p : string) (u : N) :
  ((n = "" \/ r = "" \/ p = "")
   /\ register s n r d p u = (IncompleteInformation, s))
  \/ (n <> "" /\ r <> "" /\ p <> ""
      /\ ((existsb (fun st => st.(barcode) =? generate_unique_barcode u)
                   s.(students) = true
           /\ register s n r d p u
              = (DatabaseError "UNIQUE constraint failed: students.barcode", s))
          \/ (existsb (fun st => st.(barcode) =? generate_unique_barcode u)
                      s.(students) = false
              /\ existsb (fun st => st.(reg_no) =? r) s.(students) = true
              /\ register s n r d p u = (RegistrationFailed r, s))
          \/ (existsb (fun st => st.(barcode) =? generate_unique_barcode u)
                      s.(students) = false
              /\ existsb (fun st => st.(reg_no) =? r) s.(students) = false
              /\ register s n r d p u
                 = (RegistrationSuccessful n r (department_name d)
                                           (generate_unique_barcode u),
                    mkStore (s.(students)
                               ++ [mkStudent (s.(students_seq) + 1) n r
                                             (department_name d) p
                                             (generate_unique_barcode u)])
                            s.(attendance) (s.(students_seq) + 1)
                            s.(attendance_seq))))).
Proof.
  destruct (string_dec n "") as [-> | Hn].
  { left. split; [now left | reflexivity]. }
  destruct (string_dec r "") as [-> | Hr].
  { left. split; [now right; left|]. unfold register.
    cbn [PyStr.truthy andb]. now rewrite andb_false_r. }
  destruct (string_dec p "") as [-> | Hp].
  { left. split; [now right; right|]. unfold register.
    cbn [PyStr.truthy andb]. now rewrite andb_false_r. }
  right. repeat (split; [assumption|]).
  rewrite (register_filled s n r d p u Hn Hr Hp).
  destruct (existsb (fun st => st.(barcode) =? generate_unique_barcode u) _);
    [now left | right].
  destruct (existsb (fun st => st.(reg_no) =? r) _);
    [left | right]; now repeat split.
Qed.

(** X3: a submission changes the database only when it is reported as
    successful; it then adds exactly one student, with the next id, the
    submitted fields and the barcode shown, and touches nothing else. *)
Theorem register_writes_exactly_on_success :
  forall (s : Store) (n r : string) (d : Department) (p : string) (u : N),
    match fst (register s n r d p u) with
    | RegistrationSuccessful n' r' d' b' =>
        n' = n /\ r' = r /\ d' = department_name d
        /\ b' = generate_unique_barcode u
        /\ snd (register s n r d p u)
           = mkStore (s.(students)
                        ++ [mkStudent (s.(students_seq) + 1) n r d' p b'])
                     s.(attendance) (s.(students_seq) + 1) s.(attendance_seq)
    | _ => snd (register s n r d p u) = s
    end.
Proof.
  intros s n r d p u.
  destruct (register_outcomes s n r d p u)
    as [[_ ->] | (_ & _ & _ & [[_ ->] | [(_ & _ & ->) | (_ & _ & ->)]])];
    cbn [fst snd]; try reflexivity.
  now repeat split.
Qed.

Lemma existsb_false_NoDup_snoc {A : Type} (f : A -> string) (l : list A)
    (x : A) :
  existsb (fun y => f y =? f x) l = false ->
  NoDup (map f l) -> NoDup (map f (l ++ [x])).
Proof.
  intros He Hnd. rewrite map_app. cbn [map].
  apply (Permutation_NoDup (l := f x :: map f l)).
  - apply Permutation_cons_append.
  - constructor; [now apply existsb_false_not_in | exact Hnd].
Qed.

Lemma roster_keys_ok_run (acts : list Action) :
  roster_keys_ok (run acts init_database).
Proof.
  apply run_invariant.
  - intros s n r d p u (Hid & Hseq & Hr & Hb).
    destruct (register_cases s n r d p u) as [-> | (Eb & Er & ->)];
      [now repeat split|].
    cbn [snd]. unfold roster_keys_ok. cbn [students students_seq].
    rewrite length_app. cbn [List.length].
    rewrite Nat.add_1_r. repeat split.
    + rewrite seq_S, !map_app, Hid. cbn [map id]. f_equal. f_equal. lia.
    + lia.
    + apply (existsb_false_NoDup_snoc reg_no s.(students)
               (mkStudent _ n r (department_name d) p
                          (generate_unique_barcode u))); assumption.
    + apply (existsb_false_NoDup_snoc barcode s.(students)
               (mkStudent _ n r (department_name d) p
                          (generate_unique_barcode u))); assumption.
  - intros s c t1 t2 t3 H.
    destruct (record_checkin_cases s c t1 t2 t3) as [-> | (st & _ & _ & ->)];
      exact H.
  - repeat split; constructor.
Qed.

(** X4: in every reachable database the student ids are 1, 2, ... in the
    order of registration, the id counter stands at the number of students,
    and no registration number and no barcode is stored twice. *)
Theorem roster_keys_are_unique :
  forall acts : list Action,
    let s := run acts init_database in
    map id s.(students) = map N.of_nat (seq 1 (List.length s.(students)))
    /\ s.(students_seq) = N.of_nat (List.length s.(students))
    /\ NoDup (map reg_no s.(students))
    /\ NoDup (map barcode s.(students)).
Proof.
  intros acts. exact (roster_keys_ok_run acts).
Qed.

Lemma department_name_listed (d : Department) :
  In (department_name d) department_options.
Proof. destruct d; simpl; tauto. Qed.

Lemma students_ok_run (acts : list Action) :
  Forall student_ok (run acts init_database).(students).
Proof.
  apply (run_invariant (fun s => Forall student_ok s.(students))).
  - intros s n r d p u H.
    destruct (register_outcomes s n r d p u)
      as [[_ ->] | (Hn & Hr & Hp
                    & [[_ ->] | [(_ & _ & ->) | (_ & _ & ->)]])];
      cbn [snd]; try exact H.
    cbn [students]. apply Forall_app. split; [exact H|].
    constructor; [|constructor].
    unfold student_ok.
    cbn [name reg_no parent_phone department barcode].
    rewrite barcode_digits.
    destruct (upper_hex_digits_shape 8 (u / 16 ^ 24)) as [H1 H2].
    repeat split; try assumption. apply department_name_listed.
  - intros s c t1 t2 t3 H.
    destruct (record_checkin_cases s c t1 t2 t3) as [-> | (st & _ & _ & ->)];
      exact H.
  - constructor.
Qed.

(** X5: every student stored in a reachable database has a non-empty name,
    registration number and parent phone, a department from the list of
    six, and a barcode of eight upper-case hexadecimal digits. *)
Theorem stored_students_are_well_formed :
  forall (acts : list Action) (st : Student),
    In st (run acts init_database).(students) ->
    st.(name) <> "" /\ st.(reg_no) <> "" /\ st.(parent_phone) <> ""
    /\ In st.(department) department_options
    /\ String.length st.(barcode) = 8
    /\ all_chars is_upper_hex st.(barcode) = true.
Proof.
  intros acts st Hin.
  pose proof (students_ok_run acts) as H.
  rewrite Forall_forall in H. exact (H st Hin).
Qed.

Lemma find_snoc_new {A : Type} (f : A -> bool) (l : list A) (x : A) :
  existsb f l = false -> f x = true -> find f (l ++ [x]) = Some x.
Proof.
  intros He Hx. rewrite find_app_none.
  - cbn [find]. now rewrite Hx.
  - induction l as [|y l IH]; [reflexivity|].
    cbn [existsb] in He. apply orb_false_iff in He as [Hy Hl].
    cbn [find]. rewrite Hy. now apply IH.
Qed.

(** X6: after a successful registration the barcode shown on the page,
    with or without white space around it, looks up exactly the student
    just stored. *)
Theorem registered_barcode_looks_up_the_new_student :
  forall (s : Store) (n r : string) (d : Department) (p : string) (u : N)
         (n' r' d' b' w1 w2 : string),
    fst (register s n r d p u) = RegistrationSuccessful n' r' d' b' ->
    PyStr.all_space w1 = true -> PyStr.all_space w2 = true ->
    lookup_by_scan_id (snd (register s n r d p u))
                      (PyStr.strip (w1 ++ b' ++ w2))
    = Some (mkStudent (s.(students_seq) + 1) n r (department_name d) p b').
Proof.
  intros s n r d p u n' r' d' b' w1 w2 E H1 H2.
  destruct (register_outcomes s n r d p u)
    as [[_ R] | (_ & _ & _ & [[_ R] | [(_ & _ & R) | (Hb & _ & R)]])];
    rewrite R in E |- *; cbn [fst snd] in *; try discriminate.
  injection E as <- <- <- <-.
  rewrite strip_padded by assumption.
  rewrite strip_no_space by apply barcode_no_space.
  unfold lookup_by_scan_id. cbn [students].
  apply find_snoc_new; [exact Hb|]. cbn [barcode]. apply String.eqb_refl.
Qed.

(** ** Check-ins and the attendance table *)

(** X7: a scan changes the database only when it is reported as marked; it
    then adds exactly one row, for the student the stripped text looks up,
    with the date, time and status shown, and only if that student had no
    row on that date.  A run of the page that renders nothing writes
    nothing. *)
Theorem scan_writes_exactly_when_marked :
  forall (s : Store) (c : string) (t1 t2 t3 : datetime),
    match fst (record_checkin s c t1 t2 t3) with
    | AttendanceMarked st date0 time0 status0 e =>
        lookup_by_scan_id s (PyStr.strip c) = Some st
        /\ existing_record s st.(id) date0 = None
        /\ date0 = Strftime.ymd t1.(on) /\ time0 = Strftime.hms t3
        /\ (status0, e) = determine_attendance_status t2
        /\ snd (record_checkin s c t1 t2 t3)
           = mkStore s.(students)
               (s.(attendance)
                  ++ [mkAttendance (s.(attendance_seq) + 1) st.(id) date0 time0
                                   status0])
               s.(students_seq) (s.(attendance_seq) + 1)
    | _ => snd (record_checkin s c t1 t2 t3) = s
    end
    /\ forall b : bool,
         fst (qr_scanner s b c t1 t2 t3) = None ->
         snd (qr_scanner s b c t1 t2 t3) = s.
Proof.
  intros s c t1 t2 t3. split.
  - unfold record_checkin.
    destruct (lookup_by_scan_id s (PyStr.strip c)) as [st|]; [|reflexivity].
    destruct (existing_record s st.(id) _) as [r|] eqn:Ex; [reflexivity|].
    destruct (determine_attendance_status t2) as [status0 e].
    cbn [fst snd]. now repeat split.
  - intros b. unfold qr_scanner.
    destruct (b && PyStr.truthy c); [|reflexivity].
    destruct (record_checkin s c t1 t2 t3). discriminate.
Qed.

Lemma attendance_keys_ok_run (acts : list Action) :
  attendance_keys_ok (run acts init_database).
Proof.
  apply run_invariant.
  - intros s n r d p u (Hid & Hseq & Href).
    destruct (register_cases s n r d p u) as [-> | (_ & _ & ->)];
      [now repeat split|].
    cbn [snd]. unfold attendance_keys_ok. cbn [students attendance attendance_seq].
    repeat split; try assumption.
    eapply Forall_impl; [|exact Href].
    intros a Ha. cbn beta in *. rewrite map_app. apply in_or_app. now left.
  - intros s c t1 t2 t3 (Hid & Hseq & Href).
    destruct (record_checkin_cases s c t1 t2 t3) as [-> | (st & L & _ & ->)];
      [now repeat split|].
    unfold attendance_keys_ok, insert_attendance.
    cbn [students attendance attendance_seq].
    rewrite length_app. cbn [List.length]. rewrite Nat.add_1_r.
    repeat split.
    + rewrite seq_S, !map_app, Hid. cbn [map a_id]. f_equal. f_equal. lia.
    + lia.
    + apply Forall_app. split; [exact Href|].
      constructor; [|constructor]. cbn [student_id].
      apply in_map. unfold lookup_by_scan_id in L.
      now apply find_some in L.
  - repeat split; constructor.
Qed.

(** X8: in every reachable database the attendance ids are 1, 2, ... in
    the order of the check-ins and every attendance row refers to a stored
    student. *)
Theorem attendance_rows_refer_to_students :
  forall acts : list Action,
    let s := run acts init_database in
    map a_id s.(attendance) = map N.of_nat (seq 1 (List.length s.(attendance)))
    /\ s.(attendance_seq) = N.of_nat (List.length s.(attendance))
    /\ forall a, In a s.(attendance) ->
         exists st, In st s.(students) /\ st.(id) = a.(student_id).
Proof.
  intros acts s. destruct (attendance_keys_ok_run acts) as (H1 & H2 & H3).
  split; [exact H1|]. split; [exact H2|].
  intros a Ha. rewrite Forall_forall in H3.
  apply H3, in_map_iff in Ha as (st & E & Hst). now exists st.
Qed.

Lemma extends_refl {A : Type} (l : list A) : extends l l.
Proof. exists []. now rewrite app_nil_r. Qed.

Lemma extends_trans {A : Type} (l1 l2 l3 : list A) :
  extends l1 l2 -> extends l2 l3 -> extends l1 l3.
Proof.
  intros [r1 ->] [r2 ->]. exists (r1 ++ r2)%list. now rewrite app_assoc.
Qed.

Lemma step_extends (s : Store) (a : Action) :
  extends s.(students) (step s a).(students)
  /\ extends s.(attendance) (step s a).(attendance).
Proof.
  destruct a as [b n r d p u | b c t1 t2 t3]; cbn [step].
  - destruct (register_student_snd s b n r d p u) as [-> | ->];
      [split; apply extends_refl|].
    destruct (register_cases s n r d p u) as [-> | (_ & _ & ->)];
      [split; apply extends_refl|].
    cbn [snd students attendance]. split; [now eexists | apply extends_refl].
  - destruct (qr_scanner_snd s b c t1 t2 t3) as [-> | ->];
      [split; apply extends_refl|].
    destruct (record_checkin_cases s c t1 t2 t3) as [-> | (st & _ & _ & ->)];
      [split; apply extends_refl|].
    unfold insert_attendance. cbn [students attendance].
    split; [apply extends_refl | now eexists].
Qed.

Lemma run_extends (acts : list Action) (s : Store) :
  extends s.(students) (run acts s).(students)
  /\ extends s.(attendance) (run acts s).(attendance).
Proof.
  unfold run. revert s. induction acts as [|a acts IH]; intros s.
  - split; apply extends_refl.
  - cbn [fold_left]. destruct (step_extends s a) as [H1 H2].
    destruct (IH (step s a)) as [H3 H4].
    split; eapply extends_trans; eassumption.
Qed.

(** X9: no page ever changes or removes a stored row: after any further
    history both tables begin with the rows they held before, in the same
    order. *)
Theorem tables_are_append_only :
  forall (acts : list Action) (s : Store),
    (exists new_students,
        (run acts s).(students) = (s.(students) ++ new_students)%list)
    /\ (exists new_rows,
          (run acts s).(attendance) = (s.(attendance) ++ new_rows)%list).
Proof.
  intros acts s. exact (run_extends acts s).
Qed.

Lemma find_app_some {A : Type} (f : A -> bool) (l l' : list A) (x : A) :
  find f l = Some x -> find f (l ++ l') = Some x.
Proof.
  induction l as [|y l IH]; cbn [find app]; [discriminate|].
  destruct (f y); [trivial | exact IH].
Qed.

(** X10: the first check-in of a day stays authoritative: once a row for a
    student and date exists, after any further history a scan that resolves
    to that student on that date is answered "already marked" with the time
    and status of that same row, and writes nothing. *)
Theorem first_checkin_of_the_day_is_authoritative :
  forall (acts : list Action) (s : Store) (st : Student) (r : Attendance)
         (c : string) (t1 t2 t3 : datetime),
    existing_record s st.(id) (Strftime.ymd t1.(on)) = Some r ->
    lookup_by_scan_id (run acts s) (PyStr.strip c) = Some st ->
    existing_record (run acts s) st.(id) (Strftime.ymd t1.(on)) = Some r
    /\ record_checkin (run acts s) c t1 t2 t3
       = (AlreadyMarked st r.(a_time) r.(status), run acts s).
Proof.
  intros acts s st r c t1 t2 t3 Hex L.
  assert (Hex' : existing_record (run acts s) st.(id) (Strftime.ymd t1.(on))
                 = Some r).
  { unfold existing_record in *.
    destruct (run_extends acts s) as [_ [rest ->]].
    now apply find_app_some. }
  split; [exact Hex'|].
  unfold record_checkin. now rewrite L, Hex'.
Qed.

Lemma seq_N_lt (n : nat) (x : N) :
  In x (map N.of_nat (seq 1 n)) -> (x <= N.of_nat n)%N.
Proof.
  intros H. apply in_map_iff in H as (k & <- & Hk).
  apply in_seq in Hk. lia.
Qed.

(** X11: in a reachable database a student can check in right after
    registering: the first scan of the barcode shown on the registration
    page is recorded, with the status of the hour of the scan. *)
Theorem new_student_can_check_in :
  forall (acts : list Action) (n r : string) (d : Department) (p : string)
         (u : N) (n' r' d' b' : string) (t1 t2 t3 : datetime),
    let s := run acts init_database in
    fst (register s n r d p u) = RegistrationSuccessful n' r' d' b' ->
    fst (record_checkin (snd (register s n r d p u)) b' t1 t2 t3)
    = AttendanceMarked
        (mkStudent (s.(students_seq) + 1) n r (department_name d) p b')
        (Strftime.ymd t1.(on)) (Strftime.hms t3)
        (fst (determine_attendance_status t2))
        (snd (determine_attendance_status t2)).
Proof.
  intros acts n r d p u n' r' d' b' t1 t2 t3 s E.
  destruct (register_outcomes s n r d p u)
    as [[_ R] | (_ & _ & _ & [[_ R] | [(_ & _ & R) | (Hb & _ & R)]])];
    rewrite R in E |- *; cbn [fst snd] in *; try discriminate.
  injection E as <- <- <- <-.
  unfold record_checkin.
  rewrite strip_no_space by apply barcode_no_space.
  unfold lookup_by_scan_id at 1. cbn [students].
  rewrite (find_snoc_new _ _ _ Hb) by (cbn [barcode]; apply String.eqb_refl).
  cbn [id].
  assert (Hnone : existing_record
                    (mkStore (s.(students)
                                ++ [mkStudent (s.(students_seq) + 1) n r
                                      (department_name d) p
                                      (generate_unique_barcode u)])
                             s.(attendance) (s.(students_seq) + 1)
                             s.(attendance_seq))
                    (s.(students_seq) + 1) (Strftime.ymd t1.(on)) = None).
  { unfold existing_record. cbn [attendance].
    destruct (find _ s.(attendance)) as [a|] eqn:F; [|reflexivity].
    apply find_some in F as [Ha Hm]. exfalso.
    apply andb_true_iff in Hm as [Hm _]. apply N.eqb_eq in Hm.
    destruct (attendance_keys_ok_run acts) as (_ & _ & Href).
    destruct (roster_keys_ok_run acts) as (Hid & Hseq & _).
    fold s in Href, Hid, Hseq. rewrite Forall_forall in Href.
    specialize (Href a Ha). rewrite Hid in Href.
    apply seq_N_lt in Href. lia. }
  rewrite Hnone. now destruct (determine_attendance_status t2).
Qed.

(** ** The sidebar and the dashboard *)

Lemma filter_length_pos {A : Type} (f : A -> bool) (l : list A) (x : A) :
  In x l -> f x = true -> 1 <= List.length (filter f l).
Proof.
  induction l as [|y l IH]; intros Hin Hx; [destruct Hin|].
  cbn [filter]. destruct Hin as [-> | Hin].
  - rewrite Hx. cbn [List.length]. lia.
  - specialize (IH Hin Hx). destruct (f y); cbn [List.length]; lia.
Qed.

(** With at most one row per student and date, the rows of one date belong
    to different students. *)
Lemma one_day_students_NoDup (l : list Attendance) (today : string) :
  (forall sid,
      List.length
        (filter (fun a => (a.(student_id) =? sid)%N && (a.(a_date) =? today)) l)
      <= 1) ->
  NoDup (map student_id (filter (fun a => a.(a_date) =? today) l)).
Proof.
  induction l as [|a l IH]; intros H; [constructor|].
  assert (Hl : forall sid,
             List.length
               (filter (fun a => (a.(student_id) =? sid)%N
                                 && (a.(a_date) =? today)) l) <= 1).
  { intros sid. specialize (H sid). cbn [filter] in H.
    destruct (_ && _) in H; cbn [List.length] in H; lia. }
  cbn [filter]. destruct (a.(a_date) =? today) eqn:Ed; [|now apply IH].
  cbn [map]. constructor; [|now apply IH].
  intros Hin. apply in_map_iff in Hin as (a' & Es & Ha').
  apply filter_In in Ha' as [Ha' Ed'].
  specialize (H a.(student_id)). cbn [filter] in H.
  rewrite N.eqb_refl, Ed in H. cbn [andb List.length] in H.
  assert (1 <= List.length
                 (filter (fun x => (x.(student_id) =? a.(student_id))%N
                                   && (x.(a_date) =? today)) l)).
  { apply (filter_length_pos _ _ a' Ha'). rewrite Es, N.eqb_refl. exact Ed'. }
  lia.
Qed.

Lemma attendance_on_le_students (acts : list Action) (today : string) :
  attendance_on (run acts init_database) today
  <= total_students (run acts init_database).
Proof.
  unfold attendance_on, total_students.
  set (s := run acts init_database).
  rewrite <- (length_map student_id), <- (length_map id s.(students)).
  apply NoDup_incl_length.
  - apply one_day_students_NoDup. intros sid.
    exact (daily_unique_run acts sid today).
  - intros x Hx. apply in_map_iff in Hx as (a & <- & Ha).
    apply filter_In in Ha as [Ha _].
    destruct (attendance_keys_ok_run acts) as (_ & _ & Href).
    rewrite Forall_forall in Href. now apply Href.
Qed.

(** X12: in every reachable database the sidebar never counts more
    check-ins today than there are students, and it shows the attendance
    rate exactly when at least one student is registered. *)
Theorem sidebar_attendance_never_exceeds_roster :
  forall (acts : list Action) (now : datetime),
    let q := quick_stats (run acts init_database) now in
    q.(qs_today_attendance) <= q.(qs_total_students)
    /\ (q.(qs_attendance_rate) = None <-> q.(qs_total_students) = 0).
Proof.
  intros acts now q. subst q. unfold quick_stats.
  cbn [qs_today_attendance qs_total_students qs_attendance_rate].
  split; [apply attendance_on_le_students|].
  destruct (total_students (run acts init_database)) as [|k]; cbn [Nat.ltb Nat.leb].
  - now split.
  - split; [discriminate | lia].
Qed.

Lemma status_counts_on (l : list Attendance) (today : string) :
  Forall (fun a => valid_status a.(status)) l ->
  List.length (filter (fun a => (a.(a_date) =? today) && (a.(status) =? "present")) l)
  + List.length (filter (fun a => (a.(a_date) =? today) && (a.(status) =? "late")) l)
  + List.length (filter (fun a => (a.(a_date) =? today) && (a.(status) =? "absent")) l)
  = List.length (filter (fun a => a.(a_date) =? today) l).
Proof.
  induction 1 as [|a l Ha _ IH]; [reflexivity|].
  cbn [filter]. destruct (a.(a_date) =? today); cbn [andb]; [|exact IH].
  destruct Ha as [E | [E | E]]; rewrite E; cbn [String.eqb Ascii.eqb Bool.eqb];
    cbn [List.length]; lia.
Qed.

(** X13: on the dashboard of a reachable database, the present and late
    counts of today together with today's absent rows make up today's
    attendance, which never exceeds the number of students. *)
Theorem dashboard_counts_are_consistent :
  forall (acts : list Action) (now : datetime),
    let s := run acts init_database in
    let m := dashboard_metrics s now in
    m.(dm_present_today) + m.(dm_late_today)
    + attendance_on_with s (Strftime.ymd now.(on)) "absent"
    = m.(dm_today_attendance)
    /\ m.(dm_today_attendance) <= m.(dm_total_students).
Proof.
  intros acts now s m. subst m. unfold dashboard_metrics.
  cbn [dm_present_today dm_late_today dm_today_attendance dm_total_students].
  split.
  - unfold attendance_on_with, attendance_on.
    apply status_counts_on. exact (statuses_ok_run acts).
  - apply attendance_on_le_students.
Qed.

(** ** Text dates and calendar order *)

Lemma string_leb_trans (a b c : string) :
  String.leb a b = true -> String.leb b c = true -> String.leb a c = true.
Proof.
  unfold String.leb. revert b c.
  induction a as [|x a IH]; intros [|y b] [|z c]; cbn [String.compare];
    try reflexivity; try discriminate.
  unfold Ascii.compare.
  destruct (N.compare_spec (N_of_ascii x) (N_of_ascii y)) as [Exy|Lxy|Gxy];
    destruct (N.compare_spec (N_of_ascii y) (N_of_ascii z)) as [Eyz|Lyz|Gyz];
    try discriminate; intros H1 H2.
  - rewrite Exy, Eyz, N.compare_refl. now apply (IH b c).
  - rewrite Exy. apply N.compare_lt_iff in Lyz. now rewrite Lyz.
  - rewrite <- Eyz. apply N.compare_lt_iff in Lxy. now rewrite Lxy.
  - assert (L : (N_of_ascii x < N_of_ascii z)%N) by lia.
    apply N.compare_lt_iff in L. now rewrite L.
Qed.

(** Two strings that start with a printed digit compare by that digit
    first. *)
Lemma compare_digit (a b : nat) (s t : string) :
  String.compare (String (Strftime.digit a) s) (String (Strftime.digit b) t)
  = match Nat.compare (a mod 10) (b mod 10) with
    | Eq => String.compare s t
    | r => r
    end.
Proof.
  unfold Strftime.digit.
  pose proof (Nat.mod_upper_bound a 10 ltac:(discriminate)) as Ha.
  pose proof (Nat.mod_upper_bound b 10 ltac:(discriminate)) as Hb.
  generalize dependent (a mod 10). generalize dependent (b mod 10).
  intros y Hy x Hx.
  assert (Ex : x = 0 \/ x = 1 \/ x = 2 \/ x = 3 \/ x = 4 \/ x = 5 \/ x = 6
               \/ x = 7 \/ x = 8 \/ x = 9) by lia.
  assert (Ey : y = 0 \/ y = 1 \/ y = 2 \/ y = 3 \/ y = 4 \/ y = 5 \/ y = 6
               \/ y = 7 \/ y = 8 \/ y = 9) by lia.
  clear Hx Hy.
  repeat (destruct Ex as [Ex|Ex]);
    repeat (destruct Ey as [Ey|Ey]); subst x y; reflexivity.
Qed.

Lemma digits_of_year (y : nat) :
  y < 10 * 1000 ->
  y = 1000 * ((y / 1000) mod 10) + 100 * ((y / 100) mod 10)
      + 10 * ((y / 10) mod 10) + y mod 10
  /\ (y / 100) mod 10 < 10 /\ (y / 10) mod 10 < 10 /\ y mod 10 < 10.
Proof.
  intros H.
  pose proof (Nat.mod_upper_bound (y / 100) 10 ltac:(discriminate)).
  pose proof (Nat.mod_upper_bound (y / 10) 10 ltac:(discriminate)).
  pose proof (Nat.mod_upper_bound y 10 ltac:(discriminate)).
  repeat split; try assumption.
  pose proof (Nat.div_mod_eq y 10). pose proof (Nat.div_mod_eq (y / 10) 10).
  pose proof (Nat.div_mod_eq (y / 100) 10).
  assert (y / 100 = y / 10 / 10) by (now rewrite Nat.Div0.div_div).
  assert (y / 1000 = y / 100 / 10) by (now rewrite Nat.Div0.div_div).
  assert (y / 1000 < 10) by (apply Nat.Div0.div_lt_upper_bound; lia).
  rewrite (Nat.mod_small (y / 1000)) by lia. lia.
Qed.

Lemma digits_of_two (m : nat) :
  m < 100 -> m = 10 * ((m / 10) mod 10) + m mod 10 /\ m mod 10 < 10.
Proof.
  intros H. pose proof (Nat.mod_upper_bound m 10 ltac:(discriminate)).
  split; [|assumption]. pose proof (Nat.div_mod_eq m 10).
  assert (m / 10 < 10) by (apply Nat.Div0.div_lt_upper_bound; lia).
  rewrite (Nat.mod_small (m / 10)) by lia. lia.
Qed.

Lemma date_leb_spec (d1 d2 : date) :
  date_leb d1 d2 = true
  <-> d1.(year) < d2.(year)
      \/ (d1.(year) = d2.(year)
          /\ (d1.(month) < d2.(month)
              \/ (d1.(month) = d2.(month) /\ d1.(day) <= d2.(day)))).
Proof.
  unfold date_leb.
  rewrite orb_true_iff, andb_true_iff, orb_true_iff, andb_true_iff,
    !Nat.ltb_lt, !Nat.eqb_eq, Nat.leb_le.
  reflexivity.
Qed.

Lemma ymd_leb (d1 d2 : date) :
  printable d1 -> printable d2 ->
  String.leb (Strftime.ymd d1) (Strftime.ymd d2) = date_leb d1 d2.
Proof.
  revert d1 d2.
  intros [y1 m1 a1] [y2 m2 a2] (_ & Hy1 & Hm1 & Ha1) (_ & Hy2 & Hm2 & Ha2).
  cbn [year month day] in *.
  unfold String.leb, Strftime.ymd, Strftime.pad4, Strftime.pad2.
  cbn [year month day append].
  rewrite !compare_digit.
  change (String.compare (String "-" ?s) (String "-" ?t))
    with (String.compare s t).
  rewrite !compare_digit.
  change (String.compare (String "-" ?s) (String "-" ?t))
    with (String.compare s t).
  rewrite !compare_digit. cbn [String.compare].
  destruct (digits_of_year y1 Hy1) as (Ey1 & ? & ? & ?).
  destruct (digits_of_year y2 Hy2) as (Ey2 & ? & ? & ?).
  destruct (digits_of_two m1 Hm1) as (Em1 & ?).
  destruct (digits_of_two m2 Hm2) as (Em2 & ?).
  destruct (digits_of_two a1 Ha1) as (Ea1 & ?).
  destruct (digits_of_two a2 Ha2) as (Ea2 & ?).
  destruct (date_leb (mkDate y1 m1 a1) (mkDate y2 m2 a2)) eqn:E;
    [apply date_leb_spec in E
    | apply not_true_iff_false in E; rewrite date_leb_spec in E];
    cbn [year month day] in E;
    repeat match goal with
           | |- context [Nat.compare ?x ?y] =>
               destruct (Nat.compare_spec x y)
           end;
    try reflexivity; exfalso; lia.
Qed.

(** X14: on dates with four-digit years the text form 'YYYY-MM-DD' sorts as
    the calendar does, so the text comparisons of the report query are
    comparisons of dates. *)
Theorem text_dates_sort_as_the_calendar :
  forall d1 d2 : date,
    printable d1 -> printable d2 ->
    String.leb (Strftime.ymd d1) (Strftime.ymd d2) = date_leb d1 d2.
Proof.
  intros d1 d2. apply ymd_leb.
Qed.

(** ** The report query *)

(** The rows of the report are the pairs of an attendance row in the range
    and the student it belongs to, in the chosen department. *)
Lemma report_data_In (s : Store) (d1 d2 : date) (f : option Department)
    (row : ReportRow) :
  In row (report_data s d1 d2 f)
  <-> exists a st,
        In a s.(attendance) /\ In st s.(students)
        /\ a.(student_id) = st.(id)
        /\ in_range (Strftime.ymd d1) (Strftime.ymd d2) a = true
        /\ match f with
           | None => True
           | Some d => st.(department) = department_name d
           end
        /\ row = mkReportRow st.(name) st.(reg_no) st.(department)
                             a.(a_date) a.(a_time) a.(status).
Proof.
  unfold report_data, in_range. split.
  - intros H. apply (Permutation_in _ (order_by_perm _ _)) in H.
    apply in_flat_map in H as (a & Ha & H).
    apply in_flat_map in H as (st & Hst & H).
    destruct (a.(student_id) =? st.(id))%N eqn:E1; [|destruct H].
    destruct (String.leb (Strftime.ymd d1) a.(a_date)) eqn:E3; [|destruct H].
    destruct (String.leb a.(a_date) (Strftime.ymd d2)) eqn:E4; [|destruct H].
    cbn [andb] in H. apply N.eqb_eq in E1.
    exists a, st. rewrite E3, E4. destruct f as [d|].
    + destruct (st.(department) =? department_name d) eqn:E2; [|destruct H].
      apply String.eqb_eq in E2. destruct H as [<- | []]. now repeat split.
    + destruct H as [<- | []]. now repeat split.
  - intros (a & st & Ha & Hst & E1 & Hr & Hf & ->).
    apply (Permutation_in _ (Permutation_sym (order_by_perm _ _))).
    apply in_flat_map. exists a. split; [exact Ha|].
    apply in_flat_map. exists st. split; [exact Hst|].
    apply N.eqb_eq in E1. rewrite E1.
    apply andb_true_iff in Hr as [-> ->]. cbn [andb].
    destruct f as [d|]; [|now left].
    rewrite Hf, String.eqb_refl. now left.
Qed.

(** X15: a row is in the report exactly when it joins an attendance row
    whose date lies in the range with the student it refers to, and that
    student is in the chosen department (any department when none is
    chosen). *)
Theorem report_rows_are_the_matching_check_ins :
  forall (s : Store) (d1 d2 : date) (f : option Department) (row : ReportRow),
    In row (report_data s d1 d2 f)
    <-> exists a st,
          In a s.(attendance) /\ In st s.(students)
          /\ a.(student_id) = st.(id)
          /\ in_range (Strftime.ymd d1) (Strftime.ymd d2) a = true
          /\ match f with
             | None => True
             | Some d => st.(department) = department_name d
             end
          /\ row = mkReportRow st.(name) st.(reg_no) st.(department)
                               a.(a_date) a.(a_time) a.(status).
Proof.
  intros s d1 d2 f row. apply report_data_In.
Qed.

(** X16: a report over a range whose end date lies before its start date
    finds no records, whatever the database holds. *)
Theorem inverted_range_finds_no_records :
  forall (s : Store) (d1 d2 : date) (f : option Department),
    printable d1 -> printable d2 -> date_leb d1 d2 = false ->
    generate_report s d1 d2 f = NoRecordsFound.
Proof.
  intros s d1 d2 f P1 P2 H. unfold generate_report.
  destruct (report_data s d1 d2 f) as [|row rows] eqn:E; [reflexivity|].
  exfalso.
  assert (Hin : In row (report_data s d1 d2 f)) by (rewrite E; now left).
  apply report_data_In in Hin as (a & st & _ & _ & _ & Hr & _).
  unfold in_range in Hr. apply andb_true_iff in Hr as [H1 H2].
  pose proof (string_leb_trans _ _ _ H1 H2) as H3.
  rewrite (ymd_leb d1 d2 P1 P2) in H3. congruence.
Qed.

Lemma filter_none {A : Type} (l : list A) : filter (fun _ => false) l = [].
Proof. induction l; auto. Qed.

Lemma length_flat_map_if {A B : Type} (c : A -> bool) (g : A -> B)
    (l : list A) :
  List.length (flat_map (fun x => if c x then [g x] else []) l)
  = List.length (filter c l).
Proof.
  induction l as [|x l IH]; [reflexivity|].
  cbn [flat_map filter]. rewrite length_app, IH.
  now destruct (c x).
Qed.

(** The number of report rows, check-in by check-in. *)
Lemma report_data_length (s : Store) (d1 d2 : date) (f : option Department) :
  List.length (report_data s d1 d2 f)
  = list_sum
      (map (fun a =>
              List.length
                (filter
                   (fun st =>
                      (a.(student_id) =? st.(id))%N
                      && String.leb (Strftime.ymd d1) a.(a_date)
                      && String.leb a.(a_date) (Strftime.ymd d2)
                      && match f with
                         | None => true
                         | Some d => st.(department) =? department_name d
                         end)
                   s.(students)))
           s.(attendance)).
Proof.
  unfold report_data. rewrite (Permutation_length (order_by_perm _ _)).
  rewrite length_flat_map. f_equal. apply map_ext. intros a.
  apply (length_flat_map_if
           (fun st =>
              (a.(student_id) =? st.(id))%N
              && String.leb (Strftime.ymd d1) a.(a_date)
              && String.leb a.(a_date) (Strftime.ymd d2)
              && match f with
                 | None => true
                 | Some d => st.(department) =? department_name d
                 end)).
Qed.

(** An id that occurs among ids without repetition occurs once. *)
Lemma one_student_per_id (l : list Student) (x : N) :
  NoDup (map id l) -> In x (map id l) ->
  List.length (filter (fun st => (x =? st.(id))%N) l) = 1.
Proof.
  induction l as [|st l IH]; intros Hnd Hin; [destruct Hin|].
  cbn [map] in Hnd, Hin. inversion Hnd as [|y ys Hnot Hnd']; subst.
  cbn [filter]. destruct (x =? st.(id))%N eqn:E.
  - apply N.eqb_eq in E. subst x. cbn [List.length]. f_equal.
    destruct (filter _ l) as [|st' rest] eqn:F; [reflexivity|]. exfalso.
    assert (Hst' : In st' (filter (fun st0 => (st.(id) =? st0.(id))%N) l))
      by (rewrite F; now left).
    apply filter_In in Hst' as [Hst' E']. apply N.eqb_eq in E'.
    apply Hnot. rewrite E'. now apply in_map.
  - destruct Hin as [Hin | Hin]; [|now apply IH].
    subst x. now rewrite N.eqb_refl in E.
Qed.

Lemma NoDup_map_injective {A B : Type} (f : A -> B) (l : list A) :
  (forall x y, f x = f y -> x = y) -> NoDup l -> NoDup (map f l).
Proof.
  intros Hf. induction 1 as [|x l Hx _ IH]; cbn [map]; constructor; [|exact IH].
  intros Hin. apply in_map_iff in Hin as (y & E & Hy).
  apply Hf in E. now subst y.
Qed.

Lemma NoDup_seq_N (n : nat) : NoDup (map N.of_nat (seq 1 n)).
Proof.
  apply NoDup_map_injective; [apply Nat2N.inj | apply seq_NoDup].
Qed.

Lemma student_ids_NoDup (acts : list Action) :
  NoDup (map id (run acts init_database).(students)).
Proof.
  destruct (roster_keys_ok_run acts) as (-> & _). apply NoDup_seq_N.
Qed.

(** X17: in a reachable database the report without a department filter
    has exactly one row for every attendance row whose date lies in the
    range: the join neither drops nor repeats a check-in. *)
Theorem report_has_one_row_per_check_in :
  forall (acts : list Action) (d1 d2 : date),
    let s := run acts init_database in
    List.length (report_data s d1 d2 None)
    = List.length
        (filter (in_range (Strftime.ymd d1) (Strftime.ymd d2)) s.(attendance)).
Proof.
  intros acts d1 d2 s. rewrite report_data_length.
  destruct (attendance_keys_ok_run acts) as (_ & _ & Href). fold s in Href.
  pose proof (student_ids_NoDup acts) as Hnd. fold s in Hnd.
  clearbody s. revert Href. generalize s.(attendance). intros l Href.
  induction Href as [|a l Ha _ IH]; [reflexivity|].
  cbn [map filter].
  change (list_sum (?x :: ?xs)) with (x + list_sum xs).
  rewrite IH. unfold in_range at 2.
  destruct (String.leb (Strftime.ymd d1) a.(a_date));
    [destruct (String.leb a.(a_date) (Strftime.ymd d2))|].
  - cbn [andb List.length].
    rewrite (filter_ext _ (fun st => (a.(student_id) =? st.(id))%N))
      by (intros st; now rewrite !andb_true_r).
    now rewrite (one_student_per_id _ _ Hnd Ha).
  - cbn [andb]. rewrite (filter_ext _ (fun _ => false))
      by (intros st; now rewrite andb_false_r).
    now rewrite filter_none.
  - cbn [andb]. rewrite (filter_ext _ (fun _ => false))
      by (intros st; now rewrite !andb_false_r).
    now rewrite filter_none.
Qed.

(** A listed department is the name of exactly one option. *)
Lemma one_option_per_department (v : string) :
  In v department_options ->
  list_sum (map (fun d => if v =? department_name d then 1 else 0)
                all_departments) = 1.
Proof.
  intros H. cbn [department_options In] in H.
  repeat (destruct H as [<- | H]; [reflexivity|]). destruct H.
Qed.

Lemma department_split (base : Student -> bool) (l : list Student) :
  Forall student_ok l ->
  List.length (filter (fun st => base st && true) l)
  = list_sum
      (map (fun d =>
              List.length
                (filter (fun st => base st
                                   && (st.(department) =? department_name d)) l))
           all_departments).
Proof.
  induction 1 as [|st l Hst _ IH]; [reflexivity|].
  destruct Hst as (_ & _ & _ & Hd & _).
  pose proof (one_option_per_department _ Hd) as H1.
  cbn [all_departments map list_sum fold_right filter] in *.
  destruct (base st); cbn [andb].
  - destruct (st.(department) =? _); destruct (st.(department) =? _);
      destruct (st.(department) =? _); destruct (st.(department) =? _);
      destruct (st.(department) =? _); destruct (st.(department) =? _);
      cbn [List.length]; lia.
  - exact IH.
Qed.

(** X18: in a reachable database the six department reports split the
    report for all departments: their row counts add up to its row count. *)
Theorem department_reports_split_the_full_report :
  forall (acts : list Action) (d1 d2 : date),
    let s := run acts init_database in
    List.length (report_data s d1 d2 None)
    = list_sum (map (fun d => List.length (report_data s d1 d2 (Some d)))
                    all_departments).
Proof.
  intros acts d1 d2 s.
  pose proof (students_ok_run acts) as Hok. fold s in Hok. clearbody s.
  rewrite report_data_length.
  rewrite (map_ext _ _ (fun d => report_data_length s d1 d2 (Some d))).
  induction s.(attendance) as [|a l IH]; [reflexivity|].
  cbn [map]. change (list_sum (?x :: ?xs)) with (x + list_sum xs).
  rewrite IH.
  rewrite (department_split
             (fun st => (a.(student_id) =? st.(id))%N
                        && String.leb (Strftime.ymd d1) a.(a_date)
                        && String.leb a.(a_date) (Strftime.ymd d2)) _ Hok).
  cbn [all_departments map list_sum fold_right]. lia.
Qed.

(** ** The order of the rows *)

Lemma insert_by_HdRel {A : Type} (before : A -> A -> bool) (x y : A)
    (l : list A) :
  before y x = true -> HdRel (fun a b => before a b = true) y l ->
  HdRel (fun a b => before a b = true) y (insert_by before x l).
Proof.
  intros Hyx Hl. destruct l as [|z l]; cbn [insert_by]; [now constructor|].
  destruct (before x z); constructor; [exact Hyx|].
  now inversion Hl.
Qed.

Lemma insert_by_sorted {A : Type} (before : A -> A -> bool) (x : A)
    (l : list A) :
  (forall a b, before a b = false -> before b a = true) ->
  Sorted (fun a b => before a b = true) l ->
  Sorted (fun a b => before a b = true) (insert_by before x l).
Proof.
  intros Htot. induction 1 as [|y l Hs IH Hh]; cbn [insert_by].
  - repeat constructor.
  - destruct (before x y) eqn:E.
    + constructor; [now constructor | now constructor].
    + constructor; [exact IH|].
      apply insert_by_HdRel; [now apply Htot | exact Hh].
Qed.

(** With a total and transitive order, [ORDER BY] puts every row before
    all the rows that follow it. *)
Lemma order_by_sorted {A : Type} (before : A -> A -> bool) (l : list A) :
  (forall a b, before a b = false -> before b a = true) ->
  (forall a b c, before a b = true -> before b c = true -> before a c = true) ->
  StronglySorted (fun a b => before a b = true) (order_by before l).
Proof.
  intros Htot Htrans. apply Sorted_StronglySorted.
  - intros a b c. apply Htrans.
  - induction l as [|x l IH]; cbn [order_by fold_right]; [constructor|].
    now apply insert_by_sorted.
Qed.

Lemma string_ltb_leb (a b : string) : String.ltb a b = negb (String.leb b a).
Proof.
  unfold String.ltb, String.leb. rewrite (String.compare_antisym a b).
  now destruct (String.compare b a).
Qed.

Lemma string_leb_false (a b : string) :
  String.leb a b = false -> String.leb b a = true.
Proof.
  intros H. destruct (String.leb_total a b) as [E | E]; congruence.
Qed.

Lemma report_order_total (x y : ReportRow) :
  report_order x y = false -> report_order y x = true.
Proof.
  unfold report_order. rewrite !string_ltb_leb.
  destruct (String.leb x.(r_date) y.(r_date)) eqn:E1;
    destruct (String.leb y.(r_date) x.(r_date)) eqn:E2; cbn [negb orb];
    try reflexivity; try discriminate.
  rewrite (String.leb_antisym _ _ E1 E2), !String.eqb_refl. cbn [andb].
  apply string_leb_false.
Qed.

Lemma report_order_trans (x y z : ReportRow) :
  report_order x y = true -> report_order y z = true ->
  report_order x z = true.
Proof.
  unfold report_order. rewrite !string_ltb_leb.
  intros H1 H2.
  apply orb_true_iff in H1 as [H1 | H1]; apply orb_true_iff in H2 as [H2 | H2].
  - apply negb_true_iff in H1, H2. apply orb_true_iff. left.
    apply negb_true_iff.
    destruct (String.leb x.(r_date) z.(r_date)) eqn:E; [|reflexivity].
    apply string_leb_false in H2.
    pose proof (string_leb_trans _ _ _ E H2). congruence.
  - apply andb_true_iff in H2 as [E _]. apply String.eqb_eq in E.
    rewrite E. now rewrite H1.
  - apply andb_true_iff in H1 as [E _]. apply String.eqb_eq in E.
    rewrite <- E. now rewrite H2.
  - apply andb_true_iff in H1 as [E1 T1]. apply andb_true_iff in H2 as [E2 T2].
    apply String.eqb_eq in E1, E2. rewrite E2, E1, String.eqb_refl.
    rewrite (string_leb_trans _ _ _ T2 T1). cbn [andb]. apply orb_true_r.
Qed.

(** X19: the report lists the newest check-ins first: every row stands
    before all rows with an earlier date, and before all rows of the same
    date with an earlier or equal time. *)
Theorem report_is_newest_first :
  forall (s : Store) (d1 d2 : date) (f : option Department),
    StronglySorted
      (fun x y =>
         String.ltb y.(r_date) x.(r_date) = true
         \/ (y.(r_date) = x.(r_date)
             /\ String.leb y.(r_time) x.(r_time) = true))
      (report_data s d1 d2 f).
Proof.
  intros s d1 d2 f.
  assert (H : StronglySorted (fun x y => report_order x y = true)
                (report_data s d1 d2 f)).
  { unfold report_data. apply order_by_sorted.
    - apply report_order_total.
    - apply report_order_trans. }
  induction H as [|x l _ IH Hx]; constructor; [exact IH|].
  eapply Forall_impl; [|exact Hx]. intros y Hy. cbn beta in Hy.
  unfold report_order in Hy. apply orb_true_iff in Hy as [Hy | Hy];
    [now left | right].
  apply andb_true_iff in Hy as [E T]. apply String.eqb_eq in E. now split.
Qed.

(** X20: the "All Students" page and the generator page list the students
    in the order of their names: every student stands before all students
    whose name sorts after or equal to theirs, and the listing holds the
    same students as the table. *)
Theorem students_are_listed_by_name :
  forall s : Store,
    StronglySorted (fun x y => String.leb x.(name) y.(name) = true)
                   (students_by_name s)
    /\ Permutation (students_by_name s) s.(students)
    /\ map student (students_data s) = students_by_name s.
Proof.
  intros s. split; [|split].
  - unfold students_by_name. apply order_by_sorted.
    + intros a b. apply string_leb_false.
    + intros a b c. apply string_leb_trans.
  - apply order_by_perm.
  - unfold students_data, students_by_name. rewrite map_map.
    cbn [stats_row student]. apply map_id.
Qed.

(** ** Per-student statistics *)

Lemma count_for_partition (s : Store) (st : Student) :
  statuses_ok s ->
  count_for s st (fun a => a.(status) =? "present")
  + count_for s st (fun a => a.(status) =? "late")
  + count_for s st (fun a => a.(status) =? "absent")
  = count_for s st (fun _ => true).
Proof.
  unfold statuses_ok, count_for.
  induction 1 as [|a l Ha _ IH]; [reflexivity|].
  cbn [filter]. destruct (st.(id) =? a.(student_id))%N; cbn [andb]; [|exact IH].
  destruct Ha as [E | [E | E]]; rewrite E; cbn [String.eqb Ascii.eqb Bool.eqb];
    cbn [List.length]; lia.
Qed.

(** X21: in a reachable database the counts of every student's card add
    up: present, late and absent records together are the total shown. *)
Theorem student_counts_add_up_to_the_total :
  forall acts : list Action,
    Forall (fun row =>
              row.(present_count) + row.(late_count) + row.(absent_count)
              = row.(total_attendance))
           (students_data (run acts init_database)).
Proof.
  intros acts. unfold students_data. apply Forall_map, Forall_forall.
  intros st _. cbn [stats_row present_count late_count absent_count
                    total_attendance].
  apply count_for_partition, statuses_ok_run.
Qed.

Lemma list_sum_perm (l l' : list nat) :
  Permutation l l' -> list_sum l = list_sum l'.
Proof.
  unfold list_sum.
  induction 1 as [|x l l' _ IH|x y l|l1 l2 l3 _ IH1 _ IH2];
    cbn [fold_right] in *; lia.
Qed.

Lemma list_sum_map_add {A : Type} (f g : A -> nat) (l : list A) :
  list_sum (map (fun x => f x + g x) l)
  = list_sum (map f l) + list_sum (map g l).
Proof.
  unfold list_sum. induction l as [|x l IH]; [reflexivity|].
  cbn [map fold_right] in *. lia.
Qed.

Lemma list_sum_if_length {A : Type} (c : A -> bool) (l : list A) :
  list_sum (map (fun x => if c x then 1 else 0) l) = List.length (filter c l).
Proof.
  unfold list_sum. induction l as [|x l IH]; [reflexivity|].
  cbn [map fold_right filter] in *.
  destruct (c x); cbn [List.length]; lia.
Qed.

(** Summed over students without repeated ids, the rows joined to each
    student are all the rows that refer to a student. *)
Lemma totals_cover_attendance (studs : list Student) (l : list Attendance) :
  NoDup (map id studs) ->
  Forall (fun a => In a.(student_id) (map id studs)) l ->
  list_sum
    (map (fun st =>
            List.length
              (filter (fun a => (st.(id) =? a.(student_id))%N && true) l))
         studs)
  = List.length l.
Proof.
  intros Hnd. induction 1 as [|a l Ha _ IH]; cbn [filter].
  - clear Hnd. unfold list_sum.
    induction studs as [|st studs IHs]; [reflexivity|].
    cbn [map fold_right List.length]. exact IHs.
  - rewrite (map_ext _
               (fun st =>
                  (if (a.(student_id) =? st.(id))%N then 1 else 0)
                  + List.length
                      (filter (fun a0 => (st.(id) =? a0.(student_id))%N && true)
                              l))).
    + rewrite list_sum_map_add, IH, list_sum_if_length.
      rewrite (one_student_per_id _ _ Hnd Ha). reflexivity.
    + intros st. rewrite (N.eqb_sym a.(student_id)).
      now destruct (st.(id) =? a.(student_id))%N.
Qed.

(** X22: in a reachable database the totals on the students' cards sum to
    the number of attendance rows: every check-in is counted for exactly
    one student. *)
Theorem student_totals_sum_to_all_check_ins :
  forall acts : list Action,
    let s := run acts init_database in
    list_sum (map total_attendance (students_data s))
    = List.length s.(attendance).
Proof.
  intros acts s. unfold students_data. rewrite map_map.
  cbn [stats_row total_attendance]. unfold count_for.
  rewrite (list_sum_perm _
             (map (fun st =>
                     List.length
                       (filter (fun a => (st.(id) =? a.(student_id))%N && true)
                               s.(attendance)))
                  s.(students))).
  - apply totals_cover_attendance.
    + apply student_ids_NoDup.
    + now destruct (attendance_keys_ok_run acts) as (_ & _ & Href).
  - apply Permutation_map, order_by_perm.
Qed.

(** ** The QR code generator *)

Lemma dict_get_set {V : Type} (d : list (string * V)) (k k' : string) (v : V) :
  dict_get (dict_set d k v) k' = if k =? k' then Some v else dict_get d k'.
Proof.
  unfold dict_get. induction d as [|[k0 v0] d IH]; cbn [dict_set find fst].
  - destruct (k =? k'); reflexivity.
  - destruct (k0 =? k) eqn:E0; cbn [find fst].
    + apply String.eqb_eq in E0. subst k0.
      destruct (k =? k'); reflexivity.
    + destruct (k0 =? k') eqn:E1; [|exact IH].
      apply String.eqb_eq in E1. subst k0.
      now rewrite (String.eqb_sym k k'), E0.
Qed.

Lemma dict_set_keys {V : Type} (d : list (string * V)) (k : string) (v : V) :
  map fst (dict_set d k v)
  = if existsb (fun kv => fst kv =? k) d then map fst d
    else (map fst d ++ [k])%list.
Proof.
  induction d as [|[k0 v0] d IH]; cbn [dict_set existsb map fst app];
    [reflexivity|].
  destruct (k0 =? k) eqn:E; cbn [orb map fst]; [reflexivity|].
  rewrite IH. now destruct (existsb _ d).
Qed.

Lemma dict_keys_fold (rows : list Student) (acc : list (string * (N * string))) :
  NoDup (map fst acc) ->
  let d := fold_left
             (fun d st => dict_set d (option_label st) (st.(id), st.(barcode)))
             rows acc in
  NoDup (map fst d)
  /\ forall k, In k (map fst d)
               <-> In k (map fst acc) \/ In k (map option_label rows).
Proof.
  revert acc. induction rows as [|st rows IH]; intros acc Hnd; cbn [fold_left].
  - split; [exact Hnd|]. intros k. cbn [map In]. tauto.
  - assert (Hnd' : NoDup (map fst (dict_set acc (option_label st)
                                            (st.(id), st.(barcode))))).
    { rewrite dict_set_keys.
      destruct (existsb _ acc) eqn:E; [exact Hnd|].
      apply (Permutation_NoDup (l := option_label st :: map fst acc));
        [apply Permutation_cons_append|].
      constructor; [|exact Hnd].
      now apply (existsb_false_not_in fst). }
    destruct (IH _ Hnd') as [H1 H2]. split; [exact H1|].
    intros k. rewrite H2, dict_set_keys. cbn [map In].
    destruct (existsb _ acc) eqn:E.
    + apply existsb_exists in E as ([k0 v0] & Hin & Ek).
      cbn [fst] in Ek. apply String.eqb_eq in Ek. subst k0.
      assert (In (option_label st) (map fst acc))
        by (apply in_map_iff; now exists (option_label st, v0)).
      split; [tauto|]. intros [? | [<- | ?]]; tauto.
    + rewrite in_app_iff. cbn [In]. tauto.
Qed.

Lemma dict_get_fold (rows : list Student) (acc : list (string * (N * string)))
    (k : string) :
  dict_get
    (fold_left (fun d st => dict_set d (option_label st) (st.(id), st.(barcode)))
               rows acc) k
  = match find (fun st => option_label st =? k) (rev rows) with
    | Some st => Some (st.(id), st.(barcode))
    | None => dict_get acc k
    end.
Proof.
  revert acc. induction rows as [|st rows IH]; intros acc; [reflexivity|].
  cbn [fold_left rev]. rewrite IH.
  destruct (find _ (rev rows)) as [st'|] eqn:F.
  - rewrite (find_app_some _ _ [st] _ F). reflexivity.
  - rewrite (find_app_none _ _ [st] F). cbn [find]. rewrite dict_get_set.
    now destruct (option_label st =? k).
Qed.

(** X23: the options of the student select box are the labels
    "name (reg_no)" of the students, each once, so there are never more
    options than students; an option stands for the last student in name
    order who carries that label. *)
Theorem select_box_options_are_the_student_labels :
  forall rows : list Student,
    NoDup (map fst (student_options rows))
    /\ (forall k, In k (map fst (student_options rows))
                  <-> exists st, In st rows /\ option_label st = k)
    /\ List.length (student_options rows) <= List.length rows
    /\ (forall k, dict_get (student_options rows) k
                  = option_map (fun st => (st.(id), st.(barcode)))
                               (find (fun st => option_label st =? k)
                                     (rev rows))).
Proof.
  intros rows. unfold student_options.
  destruct (dict_keys_fold rows [] (NoDup_nil _)) as [H1 H2]. cbn zeta in *.
  split; [exact H1|]. split; [|split].
  - intros k. rewrite H2. cbn [map In]. split.
    + intros [[] | Hk]. apply in_map_iff in Hk as (st & E & Hst).
      now exists st.
    + intros (st & Hst & E). right. apply in_map_iff. now exists st.
  - rewrite <- (length_map fst), <- (length_map option_label rows).
    apply NoDup_incl_length; [exact H1|].
    intros k Hk. apply H2 in Hk as [[] | Hk]. exact Hk.
  - intros k. rewrite dict_get_fold.
    now destruct (find _ (rev rows)).
Qed.

Lemma roster_barcode_lookup (acts : list Action) (st : Student) :
  In st (run acts init_database).(students) ->
  lookup_by_scan_id (run acts init_database) st.(barcode) = Some st.
Proof.
  intros Hin. destruct (roster_ok_run acts) as [Hnd _].
  now apply find_by_barcode.
Qed.

(** X24: on a reachable database, whatever the generator page encodes for
    the chosen option is the barcode of a registered student with that
    label, and scanning it looks up that student. *)
Theorem generated_code_belongs_to_a_registered_student :
  forall (generate_qr_code : string -> string) (acts : list Action)
         (selected : nat) (generate_button bulk_button : bool)
         (q : GeneratedQr) (bulk : option nat),
    qr_generator generate_qr_code (run acts init_database) selected
                 generate_button bulk_button
    = GeneratorPage (Some q) bulk ->
    exists st,
      In st (run acts init_database).(students)
      /\ option_label st = q.(g_selected)
      /\ q.(g_barcode) = st.(barcode)
      /\ q.(g_image) = generate_qr_code st.(barcode)
      /\ lookup_by_scan_id (run acts init_database) q.(g_barcode) = Some st.
Proof.
  intros enc acts selected gb bb q bulk. unfold qr_generator.
  set (s := run acts init_database).
  destruct (students_by_name s) as [|r0 rows0] eqn:Erows; [discriminate|].
  rewrite <- Erows. clear Erows.
  intros H. injection H as H _.
  destruct (nth_error _ selected) as [k|]; [|discriminate].
  destruct (PyStr.truthy k && gb); [|discriminate].
  unfold student_options in H. rewrite dict_get_fold in H.
  destruct (find _ (rev (students_by_name s))) as [st|] eqn:F;
    [|discriminate].
  injection H as <-. cbn [g_selected g_barcode g_image].
  apply find_some in F as [Hin E]. apply String.eqb_eq in E.
  apply in_rev in Hin.
  apply (Permutation_in _ (order_by_perm _ _)) in Hin.
  exists st. repeat split; try assumption; try reflexivity.
  now apply roster_barcode_lookup.
Qed.

(** X25: the generator page warns exactly when no student is registered;
    otherwise the bulk button reports the number of registered students and
    without the single button no single code is shown. *)
Theorem generator_bulk_count_is_the_roster_size :
  forall (generate_qr_code : string -> string) (s : Store) (selected : nat)
         (generate_button bulk_button : bool),
    match qr_generator generate_qr_code s selected generate_button bulk_button
    with
    | NoStudentsWarning => s.(students) = []
    | GeneratorPage single bulk =>
        s.(students) <> []
        /\ bulk = (if bulk_button then Some (total_students s) else None)
        /\ (generate_button = false -> single = None)
    end.
Proof.
  intros enc s selected gb bb. unfold qr_generator.
  pose proof (order_by_perm (fun x y => String.leb x.(name) y.(name))
                            s.(students)) as HP.
  fold (students_by_name s) in HP.
  destruct (students_by_name s) as [|r0 rows0] eqn:E.
  - now apply Permutation_nil in HP.
  - split; [|split].
    + intros Hnil. rewrite Hnil in HP. symmetry in HP.
      now apply Permutation_nil in HP.
    + destruct bb; [|reflexivity]. rewrite length_map.
      unfold total_students. now rewrite (Permutation_length HP).
    + intros ->. destruct (nth_error _ selected) as [k|]; [|reflexivity].
      now rewrite andb_false_r.
Qed.

(** ** Download names *)

Lemma all_chars_app (p : ascii -> bool) (a b : string) :
  all_chars p (a ++ b) = all_chars p a && all_chars p b.
Proof.
  induction a as [|c a IH]; cbn [append all_chars]; [reflexivity|].
  now rewrite IH, andb_assoc.
Qed.

Lemma replace_char_keeps (p : ascii -> bool) (old : ascii) (new s : string) :
  all_chars p new = true -> all_chars p s = true ->
  all_chars p (replace_char old new s) = true.
Proof.
  intros Hn. induction s as [|c s IH]; cbn [replace_char all_chars];
    [reflexivity|].
  intros H. apply andb_true_iff in H as [Hc Hs].
  destruct (Ascii.eqb c old).
  - now rewrite all_chars_app, Hn, IH.
  - cbn [all_chars]. now rewrite Hc, IH.
Qed.

Lemma replace_char_removes (old : ascii) (new s : string) :
  all_chars (fun c => negb (Ascii.eqb c old)) new = true ->
  all_chars (fun c => negb (Ascii.eqb c old)) (replace_char old new s) = true.
Proof.
  intros Hn. induction s as [|c s IH]; cbn [replace_char all_chars];
    [reflexivity|].
  destruct (Ascii.eqb c old) eqn:E.
  - now rewrite all_chars_app, Hn, IH.
  - cbn [all_chars]. now rewrite E, IH.
Qed.

(** X26: the download names never contain a space, whatever the student is
    called, and the generator page's name contains no parenthesis either. *)
Theorem download_names_have_no_spaces :
  forall n : string,
    all_chars (fun c => negb (Ascii.eqb c " ")) (registration_file_name n) = true
    /\ all_chars (fun c => negb (Ascii.eqb c " ")) (generator_file_name n) = true
    /\ all_chars (fun c => negb (Ascii.eqb c "(")) (generator_file_name n) = true
    /\ all_chars (fun c => negb (Ascii.eqb c ")")) (generator_file_name n) = true.
Proof.
  intros n. unfold registration_file_name, generator_file_name.
  rewrite !all_chars_app. repeat split; apply andb_true_iff; split;
    try reflexivity.
  - now apply replace_char_removes.
  - apply replace_char_keeps; [reflexivity|].
    apply replace_char_keeps; [reflexivity|].
    now apply replace_char_removes.
  - apply replace_char_keeps; [reflexivity|].
    now apply replace_char_removes.
  - now apply replace_char_removes.
Qed.

(** ** The campus scenario, through the theorems above *)

Lemma colliding_uuids_scenario :
  generate_unique_barcode uuid_a = generate_unique_barcode uuid_b.
Proof.
  apply (barcodes_collide_iff_first_32_bits_agree uuid_a uuid_b);
    reflexivity.
Defined.

Lemma stored_student_scenario :
  student_a.(name) <> "" /\ student_a.(reg_no) <> ""
  /\ student_a.(parent_phone) <> ""
  /\ In student_a.(department) department_options
  /\ String.length student_a.(barcode) = 8
  /\ all_chars is_upper_hex student_a.(barcode) = true.
Proof.
  apply (stored_students_are_well_formed [register_a] student_a).
  left. reflexivity.
Defined.

Lemma registered_barcode_scenario :
  lookup_by_scan_id roster (PyStr.strip (" " ++ "3F2A9C10" ++ " "))
  = Some student_a.
Proof.
  exact (registered_barcode_looks_up_the_new_student
           init_database "A" "CS001" ComputerScience "+15550100" uuid_a
           "A" "CS001" "Computer Science and Engineering" "3F2A9C10" " " " "
           eq_refl eq_refl eq_refl).
Defined.

Lemma first_checkin_scenario :
  existing_record (run Campus.later Campus.two_students) 1 "2024-03-01"
  = Some (mkAttendance 1 1 "2024-03-01" "08:30:00" "present")
  /\ record_checkin (run Campus.later Campus.two_students) "3F2A9C10"
                    (march 1 16 0) (march 1 16 0) (march 1 16 0)
     = (AlreadyMarked student_a "08:30:00" "present",
        run Campus.later Campus.two_students).
Proof.
  exact (first_checkin_of_the_day_is_authoritative
           Campus.later Campus.two_students student_a
           (mkAttendance 1 1 "2024-03-01" "08:30:00" "present") "3F2A9C10"
           (march 1 16 0) (march 1 16 0) (march 1 16 0) eq_refl eq_refl).
Defined.

Lemma new_student_scenario :
  fst (record_checkin
         (snd (register roster "B" "ME002" Mechanical "+15550102" uuid_c))
         "7B1E55D2" (march 1 10 5) (march 1 10 5) (march 1 10 5))
  = AttendanceMarked Campus.student_b "2024-03-01" "10:05:00" "late" Yellow.
Proof.
  exact (new_student_can_check_in
           [register_a] "B" "ME002" Mechanical "+15550102" uuid_c
           "B" "ME002" "Mechanical Engineering" "7B1E55D2"
           (march 1 10 5) (march 1 10 5) (march 1 10 5) eq_refl).
Defined.

Lemma text_dates_scenario :
  String.leb "2024-03-31" "2024-12-01"
  = date_leb (mkDate 2024 3 31) (mkDate 2024 12 1).
Proof.
  apply (text_dates_sort_as_the_calendar (mkDate 2024 3 31) (mkDate 2024 12 1));
    unfold printable; cbn [year month day]; repeat split; lia.
Defined.

Lemma inverted_range_scenario :
  generate_report Campus.two_students (mkDate 2024 3 31) (mkDate 2024 3 1) None
  = NoRecordsFound.
Proof.
  apply inverted_range_finds_no_records;
    [unfold printable; cbn [year month day]; repeat split; lia
    | unfold printable; cbn [year month day]; repeat split; lia
    | reflexivity].
Defined.

Lemma generated_code_scenario :
  exists st,
    In st Campus.two_students.(students)
    /\ option_label st = "B (ME002)"
    /\ "7B1E55D2" = st.(barcode)
    /\ "png:7B1E55D2" = Campus.png st.(barcode)
    /\ lookup_by_scan_id Campus.two_students "7B1E55D2" = Some st.
Proof.
  exact (generated_code_belongs_to_a_registered_student
           Campus.png Campus.history 1 true true
           (mkGeneratedQr "B (ME002)" "7B1E55D2" "png:7B1E55D2" "B_ME002_QR.png")
           (Some 2) eq_refl).
Defined.
